(** * airflow_operators_metrics: the process scanner and the metrics container

    A shallow embedding of [airflow_operators_metrics/metrics.py] and the
    properties of its collection cycle.

    Conventions of the embedding.
    - A Python [str] is a [string]; each character stands for one code point
      below 256.
    - A Python [float] is kept abstract (the type [float] of the section);
      [float_of_int] is Python's [float(n)] on an [int].
    - A call that may raise returns a [result]; the exceptions that matter
      to the module are the constructors of [exn].
    - [psutil.process_iter()] is a finite snapshot: the list of the live
      processes, each with the outcome of the four fetches the module makes.
    - A generator is a finite lazy sequence [gen]: it yields items and ends
      either by exhaustion or by an exception. *)

From stdpp Require Import base option list gmap strings fin_maps sorting.
From Stdlib Require Import ZArith Ascii String.
From Stdlib Require QArith_base.

Local Open Scope string_scope.
Local Open Scope nat_scope.

(** ** Exceptions and results *)

(** [NoSuchProcess] also stands for its subclass [ZombieProcess];
    [AccessDenied] for the psutil errors outside that class. [ValueError] is
    what the metrics registry raises on label names that it did not
    declare. *)
Inductive exn : Type :=
  | NoSuchProcess
  | AccessDenied
  | IndexError
  | ValueError.

Inductive result (A : Type) : Type :=
  | Ok (a : A)
  | Raise (e : exn).
Arguments Ok {A} a.
Arguments Raise {A} e.

#[global] Instance result_ret : MRet result := fun _ a => Ok a.
#[global] Instance result_bind : MBind result := fun _ _ f m =>
  match m with
  | Ok a => f a
  | Raise e => Raise e
  end.

Definition is_ok {A} (r : result A) : bool :=
  match r with Ok _ => true | Raise _ => false end.

(** ** Generators *)

(** A finite lazy sequence: what a generator does when it is driven. *)
Inductive gen (A : Type) : Type :=
  | GStop
  | GRaise (e : exn)
  | GYield (a : A) (rest : gen A).
Arguments GStop {A}.
Arguments GRaise {A} e.
Arguments GYield {A} a rest.

(** The items a generator yields before it ends. *)
Fixpoint yielded {A} (g : gen A) : list A :=
  match g with
  | GStop | GRaise _ => []
  | GYield a rest => a :: yielded rest
  end.

(** How a generator ends: [None] by exhaustion, [Some e] by raising [e]. *)
Fixpoint raised {A} (g : gen A) : option exn :=
  match g with
  | GStop => None
  | GRaise e => Some e
  | GYield _ rest => raised rest
  end.

(** ** The string and list operations of Python that the module uses *)

(** [c.isspace()] on a code point below 256. *)
Definition isspace (c : ascii) : bool :=
  let n := N_of_ascii c in
  (((9 <=? n) && (n <=? 13)) || ((28 <=? n) && (n <=? 31))
   || (n =? 32) || (n =? 133) || (n =? 160))%N.

(** [s.split()]: the maximal runs of characters that are not whitespace.
    [word] is the run being read. *)
Fixpoint split_from (word s : string) : list string :=
  match s with
  | EmptyString => match word with EmptyString => [] | _ => [word] end
  | String c s' =>
      if isspace c then
        match word with
        | EmptyString => split_from EmptyString s'
        | _ => word :: split_from EmptyString s'
        end
      else split_from (word ++ String c EmptyString) s'
  end.

Definition split (s : string) : list string := split_from EmptyString s.

(** [sub in s]. *)
Fixpoint str_in (sub s : string) : bool :=
  String.prefix sub s ||
  match s with
  | EmptyString => false
  | String _ s' => str_in sub s'
  end.

(** [s.startswith(p)]. *)
Definition startswith (s p : string) : bool := String.prefix p s.

(** [s[lo:hi]] for bounds that are not negative: the slice is cut short
    where the string ends. *)
Definition slice (lo hi : nat) (s : string) : string :=
  String.substring lo (hi - lo) s.

(** [l[i]] for an index that is not negative. *)
Definition getitem {A} (l : list A) (i : nat) : result A :=
  match l !! i with
  | Some x => Ok x
  | None => Raise IndexError
  end.

(** [l.append(x)], as the new value of [l]. *)
Definition list_append {A} (l : list A) (x : A) : list A := (l ++ [x])%list.

(** [any(l)]. *)
Definition any (l : list bool) : bool := existsb id l.

(** [sep.join(l)]. *)
Definition join (sep : string) (l : list string) : string := String.concat sep l.

(** ** What psutil gives for one process *)

Module psutil.

(** [Process.memory_full_info()]: the fields the module reads. *)
Record pfullmem : Type := {
  rss : Z; vms : Z; shared : Z; text : Z; data : Z;
  lib : Z; uss : Z; pss : Z; swap : Z
}.

(** [Process.cpu_times()]: the fields the module reads. *)
Record pcputimes (float : Type) : Type := { user : float; system : float }.
Arguments user {float} p.
Arguments system {float} p.

(** One entry of [process_iter()] with the outcome of each fetch. *)
Record Process (float : Type) : Type := {
  cmdline : result (list string);
  memory_full_info : result pfullmem;
  cpu_times : result (pcputimes float);
  cpu_percent : result float
}.
Arguments cmdline {float} p.
Arguments memory_full_info {float} p.
Arguments cpu_times {float} p.
Arguments cpu_percent {float} p.

End psutil.

(** ** Sample processes

    The samples take the rationals for the floats, with the exact
    conversion of an integer. *)

Module sample.

Definition float : Type := QArith_base.Q.
Definition float_of_int : Z → float := QArith_base.inject_Z.

Definition mem : psutil.pfullmem :=
  {| psutil.rss := 4096; psutil.vms := 8192; psutil.shared := 1024;
     psutil.text := 512; psutil.data := 2048; psutil.lib := 256;
     psutil.uss := 3072; psutil.pss := 3584; psutil.swap := 0 |}.

Definition cpu_times : psutil.pcputimes float :=
  {| psutil.user := float_of_int 7; psutil.system := float_of_int 2 |}.

(** A process with the argument vector [cmdline] that stays. *)
Definition live (cmdline : list string) : psutil.Process float :=
  {| psutil.cmdline := Ok cmdline;
     psutil.memory_full_info := Ok mem;
     psutil.cpu_times := Ok cpu_times;
     psutil.cpu_percent := Ok (float_of_int 3) |}.

(** The same process, gone after its command line was read. *)
Definition gone (cmdline : list string) : psutil.Process float :=
  {| psutil.cmdline := Ok cmdline;
     psutil.memory_full_info := Raise NoSuchProcess;
     psutil.cpu_times := Raise NoSuchProcess;
     psutil.cpu_percent := Raise NoSuchProcess |}.

(** A worker whose whole command is the first token. *)
Definition worker_cmdline (dag operator : string) : list string :=
  ["/usr/bin/python3 /usr/local/bin/airflow run " ++ dag ++ " " ++ operator
   ++ " 2023-03-03T00:00:00+00:00 --local"].

(** The token of the extraction example of the specification, and an
    argument vector that passes the filter and has it as matching token. *)
Definition claimed_token : string :=
  "airflow run my_dag my_task 2023-03-03T00:00:00+00:00 --local".

Definition claimed_cmdline : list string := ["/usr/bin/python3"; claimed_token].

(** A worker whose date sub-token has ten characters. *)
Definition short_date_cmdline : list string :=
  ["/usr/bin/python3 /usr/local/bin/airflow run my_dag my_task 2023-03-03"].

(** The marker with too few sub-tokens after it. *)
Definition malformed_cmdline : list string :=
  ["/usr/bin/python3"; "airflow run my_dag"].

(** Not the interpreter, whatever comes later. *)
Definition shell_cmdline : list string :=
  ["/bin/bash"; "-c"; "airflow run my_dag my_task 2023-03-03T00:00:00 x y z"].

(** Flags that only contain the flag strings, and the flags themselves in
    tokens after the matching one. *)
Definition near_flags_cmdline : list string :=
  ["/usr/bin/python3 /usr/local/bin/airflow run my_dag my_task "
   ++ "2023-03-03T00:00:00+00:00 --local=true --raw-mode";
   "--local"; "--raw"].

(** A process that stays, whose memory may not be read. *)
Definition denied (cmdline : list string) : psutil.Process float :=
  {| psutil.cmdline := Ok cmdline;
     psutil.memory_full_info := Raise AccessDenied;
     psutil.cpu_times := Ok cpu_times;
     psutil.cpu_percent := Ok (float_of_int 3) |}.

(** A process that stays, with a larger resident memory. *)
Definition heavy_mem : psutil.pfullmem :=
  {| psutil.rss := 9000; psutil.vms := 8192; psutil.shared := 1024;
     psutil.text := 512; psutil.data := 2048; psutil.lib := 256;
     psutil.uss := 3072; psutil.pss := 3584; psutil.swap := 0 |}.

Definition heavy (cmdline : list string) : psutil.Process float :=
  {| psutil.cmdline := Ok cmdline;
     psutil.memory_full_info := Ok heavy_mem;
     psutil.cpu_times := Ok cpu_times;
     psutil.cpu_percent := Ok (float_of_int 3) |}.

(** The interpreter on a script that is no worker. *)
Definition plain_cmdline : list string :=
  ["/usr/bin/python3"; "manage.py"; "runserver"].

(** The matching token of the specification's example, followed by a token
    that holds the marker alone. *)
Definition two_markers_cmdline : list string :=
  ["/usr/bin/python3"; claimed_token; "airflow run"].

End sample.

Section Metrics.

(** Python's [float], and [float(n)] on an [int]. *)
Context {float : Type} (float_of_int : Z → float).

Abbreviation Process := (psutil.Process float).
Abbreviation pcputimes := (psutil.pcputimes float).
Abbreviation pfullmem := psutil.pfullmem.

(** ** The records of the module *)

Record ProcessMetrics : Type := {
  dag : string;
  operator : string;
  exec_date : string;
  is_local : bool;
  is_raw : bool;

  mem_rss : Z;
  mem_vms : Z;
  mem_shared : Z;
  mem_text : Z;
  mem_data : Z;
  mem_lib : Z;
  mem_uss : Z;
  mem_pss : Z;
  mem_swap : Z;

  cpu_percent : float;
  cpu_times_user : float;
  cpu_times_system : float
}.

(** The dict that [get_airflow_data] returns: its key set is fixed. *)
Record AirflowData : Type := {
  ad_dag : string;
  ad_operator : string;
  ad_exec_date : string;
  ad_is_local : bool;
  ad_is_raw : bool
}.

(** ** [get_airflow_data] *)

(** The body of the [for cmd_arg in cmdline] loop on a [cmd_arg] that
    contains the marker. *)
Definition on_airflow_run (cmd_arg : string) : result (option AirflowData) :=
  let airflow_args := split cmd_arg in
  dag ← getitem airflow_args 3;
  operator ← getitem airflow_args 4;
  arg5 ← getitem airflow_args 5;
  let exec_date := slice 5 25 arg5 in
  let is_local := any ((λ i, String.eqb i "--local") <$> airflow_args) in
  let is_raw := any ((λ i, String.eqb i "--raw") <$> airflow_args) in
  Ok (Some {| ad_dag := dag; ad_operator := operator;
              ad_exec_date := exec_date;
              ad_is_local := is_local; ad_is_raw := is_raw |}).

(** The loop itself; falling off its end returns [None]. *)
Fixpoint for_cmd_arg (cmdline : list string) : result (option AirflowData) :=
  match cmdline with
  | [] => Ok None
  | cmd_arg :: rest =>
      if negb (str_in "airflow run" cmd_arg) then for_cmd_arg rest
      else on_airflow_run cmd_arg
  end.

Definition get_airflow_data (process : Process)
  : result (option AirflowData) :=
  cmdline ← process.(psutil.cmdline);
  match cmdline with
  | [] => Ok None
  | arg0 :: _ =>
      if negb (startswith arg0 "/usr/bin/python") then Ok None
      else for_cmd_arg cmdline
  end.

(** ** [_get_process_name] *)

Definition _get_process_name (metrics : ProcessMetrics) : string :=
  let dag := metrics.(dag) in
  let operator := metrics.(operator) in
  let name_parts :=
    if negb (str_in dag operator) then [dag ++ "." ++ operator]
    else [operator] in
  let name_parts := list_append name_parts metrics.(exec_date) in
  let name_parts := if metrics.(is_local) then list_append name_parts "local"
                    else name_parts in
  let name_parts := if metrics.(is_raw) then list_append name_parts "is_raw"
                    else name_parts in
  join "_" name_parts.

(** ** [_get_processes_metrics] *)

(** The body of the [try]: [Ok None] is the [continue] of a process that
    is not a worker. *)
Definition try_body (process : Process)
  : result (option (AirflowData * pfullmem * pcputimes * float)) :=
  airflow_data ← get_airflow_data process;
  match airflow_data with
  | None => Ok None
  | Some airflow_data =>
      mem ← process.(psutil.memory_full_info);
      cpu_times ← process.(psutil.cpu_times);
      cpu_percent ← process.(psutil.cpu_percent);
      Ok (Some (airflow_data, mem, cpu_times, cpu_percent))
  end.

(** [except psutil.NoSuchProcess: continue]. *)
Definition except_NoSuchProcess {A} (r : result (option A))
  : result (option A) :=
  match r with
  | Raise NoSuchProcess => Ok None
  | _ => r
  end.

Definition make_metrics (airflow_data : AirflowData) (mem : pfullmem)
    (cpu_times : pcputimes) (cpu_percent : float) : ProcessMetrics :=
  {| dag := airflow_data.(ad_dag);
     operator := airflow_data.(ad_operator);
     exec_date := airflow_data.(ad_exec_date);
     is_local := airflow_data.(ad_is_local);
     is_raw := airflow_data.(ad_is_raw);
     mem_rss := mem.(psutil.rss);
     mem_vms := mem.(psutil.vms);
     mem_shared := mem.(psutil.shared);
     mem_text := mem.(psutil.text);
     mem_data := mem.(psutil.data);
     mem_lib := mem.(psutil.lib);
     mem_uss := mem.(psutil.uss);
     mem_pss := mem.(psutil.pss);
     mem_swap := mem.(psutil.swap);
     cpu_percent := cpu_percent;
     cpu_times_user := cpu_times.(psutil.user);
     cpu_times_system := cpu_times.(psutil.system) |}.

Fixpoint _get_processes_metrics (processes : list Process)
  : gen ProcessMetrics :=
  match processes with
  | [] => GStop
  | process :: rest =>
      match except_NoSuchProcess (try_body process) with
      | Raise e => GRaise e
      | Ok None => _get_processes_metrics rest
      | Ok (Some (airflow_data, mem, cpu_times, cpu_percent)) =>
          GYield (make_metrics airflow_data mem cpu_times cpu_percent)
                 (_get_processes_metrics rest)
      end
  end.

(** ** The gauges *)

(** Modelled from the spec: the metrics registry ([prometheus_client]) is
    not under src/. A gauge is created with its declared label names and
    holds one value for each label-value tuple that was set; the tuple lists
    the values of the label mapping in the order of the declared names.
    As in the library, a label mapping is taken only when its keyword names
    are the declared names: [labels] compares the two, sorted, and raises
    [ValueError] when they differ. *)
Record Gauge : Type := {
  _name : string;
  _documentation : string;
  _labelnames : list string;
  _metrics : gmap (list string) float
}.

Definition Gauge_new (name documentation : string) (labelnames : list string)
  : Gauge :=
  {| _name := name; _documentation := documentation;
     _labelnames := labelnames; _metrics := ∅ |}.

(** The key under which [g.labels] files the keyword mapping [labels]. *)
Definition labelvalues (g : Gauge) (labels : gmap string string)
  : list string :=
  (λ l, default EmptyString (labels !! l)) <$> g.(_labelnames).

(** [sorted(l)] on strings: by code points. *)
Definition sorted (l : list string) : list string := merge_sort String.le l.

(** The keyword names of a label mapping, each once. *)
Definition keywords (labels : gmap string string) : list string :=
  (map_to_list labels).*1.

(** The test of [g.labels] on the keyword mapping [labels]:
    [sorted(labelkwargs) == sorted(self._labelnames)]. *)
Definition accepts (g : Gauge) (labels : gmap string string) : bool :=
  bool_decide (sorted (keywords labels) = sorted g.(_labelnames)).

(** [g.labels] on the keyword mapping [labels], then [set(value)] on the
    child, [value] already a float. When [labels] raises, the gauge is as
    it was. *)
Definition labels_set (g : Gauge) (labels : gmap string string)
    (value : float) : result Gauge :=
  if accepts g labels then
    Ok {| _name := g.(_name); _documentation := g.(_documentation);
          _labelnames := g.(_labelnames);
          _metrics := <[labelvalues g labels := value]> g.(_metrics) |}
  else Raise ValueError.

(** [g._metrics = {}]. *)
Definition clear_metrics (g : Gauge) : Gauge :=
  {| _name := g.(_name); _documentation := g.(_documentation);
     _labelnames := g.(_labelnames); _metrics := ∅ |}.

(** ** [MetricsContainer] *)

(** A dict of strings as its items in insertion order; the keys of a dict
    differ from each other. *)
Definition dict := list (string * string).

(** [d.update(other)] on a label mapping. *)
Definition dict_update (d : gmap string string) (other : dict)
  : gmap string string :=
  foldl (λ m kv, <[kv.1 := kv.2]> m) d other.

(** Truth value of an optional string and of an optional dict. *)
Definition truthy_str (o : option string) : bool :=
  match o with
  | None | Some EmptyString => false
  | Some _ => true
  end.

Definition truthy_dict (o : option dict) : bool :=
  match o with
  | None | Some [] => false
  | Some _ => true
  end.

Record MetricsContainer : Type := {
  _prefix : option string;
  _global_labels : option dict;
  _mem_rss : Gauge;
  _mem_vms : Gauge;
  _mem_shared : Gauge;
  _mem_text : Gauge;
  _mem_lib : Gauge;
  _mem_uss : Gauge;
  _mem_swap : Gauge;
  _mem_pss : Gauge;
  _cpu_percent : Gauge;
  _cpu_times_user : Gauge;
  _cpu_times_system : Gauge
}.

Definition __init__ (prefix : option string) (global_labels : option dict)
  : MetricsContainer :=
  let labels := ["name"; "dag"; "operator"; "exec_date"] in
  let labels :=
    if truthy_dict global_labels
    then (labels ++ (fst <$> default [] global_labels))%list
    else labels in
  let gauge (name documentation : string) : Gauge :=
    let name := if truthy_str prefix
                then default EmptyString prefix ++ "_" ++ name else name in
    Gauge_new name documentation labels in
  {| _prefix := prefix;
     _global_labels := global_labels;
     _mem_rss := gauge "airflow_process_mem_rss"
                       "Non-swapped physical memory";
     _mem_vms := gauge "airflow_process_mem_vms"
                       "Amount of virtual memory";
     _mem_shared := gauge "airflow_process_mem_shared"
                          "Amount of shared memory";
     _mem_text := gauge "airflow_process_mem_text"
                        "Devoted to executable code";
     _mem_lib := gauge "airflow_process_mem_lib" "Used by shared libraries";
     _mem_uss := gauge "airflow_process_mem_uss"
                       ("Mem unique to a process and which would be freed "
                        ++ "if the process was terminated right now");
     _mem_swap := gauge "airflow_process_mem_swap"
                        "Amount of swapped memory";
     _mem_pss := gauge "airflow_process_mem_pss"
                       ("Shared with other processes, accounted in a way that "
                        ++ "the amount is divided evenly between processes "
                        ++ "that share it");
     _cpu_percent := gauge "airflow_process_cpu_percent"
                           ("System-wide CPU utilization as a percentage "
                            ++ "of the process");
     _cpu_times_user := gauge "airflow_process_cpu_times_user"
                              "CPU times user";
     _cpu_times_system := gauge "airflow_process_cpu_times_system"
                                "CPU times system" |}.

(** The label mapping that [_handle_process_metrics] builds. *)
Definition labels_of (self : MetricsContainer) (metrics : ProcessMetrics)
  : gmap string string :=
  let name := _get_process_name metrics in
  let labels : gmap string string :=
    <["exec_date" := metrics.(exec_date)]>
      (<["operator" := metrics.(operator)]>
         (<["dag" := metrics.(dag)]> {["name" := name]})) in
  if truthy_dict self.(_global_labels)
  then dict_update labels (default [] self.(_global_labels))
  else labels.

(** The container with one of its gauges replaced: what a write to that
    gauge leaves. *)
Definition put_mem_rss (self : MetricsContainer) (g : Gauge)
  : MetricsContainer :=
  {| _prefix := self.(_prefix);
     _global_labels := self.(_global_labels);
     _mem_rss := g;
     _mem_vms := self.(_mem_vms);
     _mem_shared := self.(_mem_shared);
     _mem_text := self.(_mem_text);
     _mem_lib := self.(_mem_lib);
     _mem_uss := self.(_mem_uss);
     _mem_swap := self.(_mem_swap);
     _mem_pss := self.(_mem_pss);
     _cpu_percent := self.(_cpu_percent);
     _cpu_times_user := self.(_cpu_times_user);
     _cpu_times_system := self.(_cpu_times_system) |}.

Definition put_mem_vms (self : MetricsContainer) (g : Gauge)
  : MetricsContainer :=
  {| _prefix := self.(_prefix);
     _global_labels := self.(_global_labels);
     _mem_rss := self.(_mem_rss);
     _mem_vms := g;
     _mem_shared := self.(_mem_shared);
     _mem_text := self.(_mem_text);
     _mem_lib := self.(_mem_lib);
     _mem_uss := self.(_mem_uss);
     _mem_swap := self.(_mem_swap);
     _mem_pss := self.(_mem_pss);
     _cpu_percent := self.(_cpu_percent);
     _cpu_times_user := self.(_cpu_times_user);
     _cpu_times_system := self.(_cpu_times_system) |}.

Definition put_mem_shared (self : MetricsContainer) (g : Gauge)
  : MetricsContainer :=
  {| _prefix := self.(_prefix);
     _global_labels := self.(_global_labels);
     _mem_rss := self.(_mem_rss);
     _mem_vms := self.(_mem_vms);
     _mem_shared := g;
     _mem_text := self.(_mem_text);
     _mem_lib := self.(_mem_lib);
     _mem_uss := self.(_mem_uss);
     _mem_swap := self.(_mem_swap);
     _mem_pss := self.(_mem_pss);
     _cpu_percent := self.(_cpu_percent);
     _cpu_times_user := self.(_cpu_times_user);
     _cpu_times_system := self.(_cpu_times_system) |}.

Definition put_mem_text (self : MetricsContainer) (g : Gauge)
  : MetricsContainer :=
  {| _prefix := self.(_prefix);
     _global_labels := self.(_global_labels);
     _mem_rss := self.(_mem_rss);
     _mem_vms := self.(_mem_vms);
     _mem_shared := self.(_mem_shared);
     _mem_text := g;
     _mem_lib := self.(_mem_lib);
     _mem_uss := self.(_mem_uss);
     _mem_swap := self.(_mem_swap);
     _mem_pss := self.(_mem_pss);
     _cpu_percent := self.(_cpu_percent);
     _cpu_times_user := self.(_cpu_times_user);
     _cpu_times_system := self.(_cpu_times_system) |}.

Definition put_mem_uss (self : MetricsContainer) (g : Gauge)
  : MetricsContainer :=
  {| _prefix := self.(_prefix);
     _global_labels := self.(_global_labels);
     _mem_rss := self.(_mem_rss);
     _mem_vms := self.(_mem_vms);
     _mem_shared := self.(_mem_shared);
     _mem_text := self.(_mem_text);
     _mem_lib := self.(_mem_lib);
     _mem_uss := g;
     _mem_swap := self.(_mem_swap);
     _mem_pss := self.(_mem_pss);
     _cpu_percent := self.(_cpu_percent);
     _cpu_times_user := self.(_cpu_times_user);
     _cpu_times_system := self.(_cpu_times_system) |}.

Definition put_mem_swap (self : MetricsContainer) (g : Gauge)
  : MetricsContainer :=
  {| _prefix := self.(_prefix);
     _global_labels := self.(_global_labels);
     _mem_rss := self.(_mem_rss);
     _mem_vms := self.(_mem_vms);
     _mem_shared := self.(_mem_shared);
     _mem_text := self.(_mem_text);
     _mem_lib := self.(_mem_lib);
     _mem_uss := self.(_mem_uss);
     _mem_swap := g;
     _mem_pss := self.(_mem_pss);
     _cpu_percent := self.(_cpu_percent);
     _cpu_times_user := self.(_cpu_times_user);
     _cpu_times_system := self.(_cpu_times_system) |}.

Definition put_mem_pss (self : MetricsContainer) (g : Gauge)
  : MetricsContainer :=
  {| _prefix := self.(_prefix);
     _global_labels := self.(_global_labels);
     _mem_rss := self.(_mem_rss);
     _mem_vms := self.(_mem_vms);
     _mem_shared := self.(_mem_shared);
     _mem_text := self.(_mem_text);
     _mem_lib := self.(_mem_lib);
     _mem_uss := self.(_mem_uss);
     _mem_swap := self.(_mem_swap);
     _mem_pss := g;
     _cpu_percent := self.(_cpu_percent);
     _cpu_times_user := self.(_cpu_times_user);
     _cpu_times_system := self.(_cpu_times_system) |}.

Definition put_cpu_percent (self : MetricsContainer) (g : Gauge)
  : MetricsContainer :=
  {| _prefix := self.(_prefix);
     _global_labels := self.(_global_labels);
     _mem_rss := self.(_mem_rss);
     _mem_vms := self.(_mem_vms);
     _mem_shared := self.(_mem_shared);
     _mem_text := self.(_mem_text);
     _mem_lib := self.(_mem_lib);
     _mem_uss := self.(_mem_uss);
     _mem_swap := self.(_mem_swap);
     _mem_pss := self.(_mem_pss);
     _cpu_percent := g;
     _cpu_times_user := self.(_cpu_times_user);
     _cpu_times_system := self.(_cpu_times_system) |}.

Definition put_cpu_times_user (self : MetricsContainer) (g : Gauge)
  : MetricsContainer :=
  {| _prefix := self.(_prefix);
     _global_labels := self.(_global_labels);
     _mem_rss := self.(_mem_rss);
     _mem_vms := self.(_mem_vms);
     _mem_shared := self.(_mem_shared);
     _mem_text := self.(_mem_text);
     _mem_lib := self.(_mem_lib);
     _mem_uss := self.(_mem_uss);
     _mem_swap := self.(_mem_swap);
     _mem_pss := self.(_mem_pss);
     _cpu_percent := self.(_cpu_percent);
     _cpu_times_user := g;
     _cpu_times_system := self.(_cpu_times_system) |}.

Definition put_cpu_times_system (self : MetricsContainer) (g : Gauge)
  : MetricsContainer :=
  {| _prefix := self.(_prefix);
     _global_labels := self.(_global_labels);
     _mem_rss := self.(_mem_rss);
     _mem_vms := self.(_mem_vms);
     _mem_shared := self.(_mem_shared);
     _mem_text := self.(_mem_text);
     _mem_lib := self.(_mem_lib);
     _mem_uss := self.(_mem_uss);
     _mem_swap := self.(_mem_swap);
     _mem_pss := self.(_mem_pss);
     _cpu_percent := self.(_cpu_percent);
     _cpu_times_user := self.(_cpu_times_user);
     _cpu_times_system := g |}.

(** One statement of [_handle_process_metrics]: the gauge [get self] takes
    the label mapping and the value, or [labels] raises and the container
    stays as it is. *)
Definition set_gauge (get : MetricsContainer → Gauge)
    (put : MetricsContainer → Gauge → MetricsContainer)
    (labels : gmap string string) (value : float) (self : MetricsContainer)
  : MetricsContainer * result unit :=
  match labels_set (get self) labels value with
  | Ok g => (put self g, Ok tt)
  | Raise e => (self, Raise e)
  end.

(** One statement after another: an exception of the first leaves out the
    next. *)
Definition and_then
    (first next : MetricsContainer → MetricsContainer * result unit)
    (self : MetricsContainer) : MetricsContainer * result unit :=
  match first self with
  | (self', Ok _) => next self'
  | (self', Raise e) => (self', Raise e)
  end.

(** A block of statements. *)
Definition block
    (statements : list (MetricsContainer → MetricsContainer * result unit))
  : MetricsContainer → MetricsContainer * result unit :=
  foldr and_then (λ self, (self, Ok tt)) statements.

(** [_handle_process_metrics]: the container that it leaves, and whether it
    returned or raised. *)
Definition _handle_process_metrics (self : MetricsContainer)
    (metrics : ProcessMetrics) : MetricsContainer * result unit :=
  let labels := labels_of self metrics in
  block
    [set_gauge _mem_rss put_mem_rss labels
      (float_of_int metrics.(mem_rss));
     set_gauge _mem_vms put_mem_vms labels
      (float_of_int metrics.(mem_vms));
     set_gauge _mem_shared put_mem_shared labels
      (float_of_int metrics.(mem_shared));
     set_gauge _mem_text put_mem_text labels
      (float_of_int metrics.(mem_text));
     set_gauge _mem_uss put_mem_uss labels
      (float_of_int metrics.(mem_uss));
     set_gauge _mem_swap put_mem_swap labels
      (float_of_int metrics.(mem_swap));
     set_gauge _mem_pss put_mem_pss labels
      (float_of_int metrics.(mem_pss));
     set_gauge _cpu_percent put_cpu_percent labels
      (metrics.(cpu_percent));
     set_gauge _cpu_times_user put_cpu_times_user labels
      (metrics.(cpu_times_user));
     set_gauge _cpu_times_system put_cpu_times_system labels
      (metrics.(cpu_times_system))] self.

Definition _reset (self : MetricsContainer) : MetricsContainer :=
  {| _prefix := self.(_prefix);
     _global_labels := self.(_global_labels);
     _mem_rss := clear_metrics self.(_mem_rss);
     _mem_vms := clear_metrics self.(_mem_vms);
     _mem_shared := clear_metrics self.(_mem_shared);
     _mem_text := clear_metrics self.(_mem_text);
     _mem_lib := self.(_mem_lib);
     _mem_uss := clear_metrics self.(_mem_uss);
     _mem_swap := clear_metrics self.(_mem_swap);
     _mem_pss := clear_metrics self.(_mem_pss);
     _cpu_percent := clear_metrics self.(_cpu_percent);
     _cpu_times_user := clear_metrics self.(_cpu_times_user);
     _cpu_times_system := clear_metrics self.(_cpu_times_system) |}.

(** The [for process_metrics in ...] loop of [collect]: it handles each
    record as the generator yields it and counts it in [handled]. An
    exception of the generator, or of the handling of a record, leaves the
    loop, and [collect], at once. *)
Fixpoint for_process_metrics (self : MetricsContainer)
    (g : gen ProcessMetrics) (handled : nat)
  : MetricsContainer * result nat :=
  match g with
  | GStop => (self, Ok handled)
  | GRaise e => (self, Raise e)
  | GYield process_metrics rest =>
      match _handle_process_metrics self process_metrics with
      | (self', Ok _) => for_process_metrics self' rest (S handled)
      | (self', Raise e) => (self', Raise e)
      end
  end.

(** [collect], on the snapshot [processes] that [psutil.process_iter()]
    gives during the cycle. It returns the container after the cycle and
    either the count that is logged or the exception that ended the cycle. *)
Definition collect (self : MetricsContainer) (processes : list Process)
  : MetricsContainer * result nat :=
  for_process_metrics (_reset self) (_get_processes_metrics processes) 0.

(** ** Vocabulary of the properties *)

(** The interpreter-path filter on an argument vector. *)
Definition interpreter_ok (cmdline : list string) : bool :=
  match cmdline with
  | [] => false
  | arg0 :: _ => startswith arg0 "/usr/bin/python"
  end.

(** The matching token: the first token that contains the marker. *)
Definition matching_token (cmdline : list string) : option string :=
  List.find (str_in "airflow run") cmdline.

(** An argument vector that passes the filter and whose matching token has
    fewer than the six sub-tokens the extraction reads. *)
Definition malformed (cmdline : list string) : bool :=
  interpreter_ok cmdline &&
  match matching_token cmdline with
  | Some token => Nat.ltb (List.length (split token)) 6
  | None => false
  end.

(** An argument vector of a worker: it passes the filter and its matching
    token has the six sub-tokens. *)
Definition matched (cmdline : list string) : bool :=
  interpreter_ok cmdline &&
  match matching_token cmdline with
  | Some token => Nat.leb 6 (List.length (split token))
  | None => false
  end.

Definition error_of {A} (r : result A) : option exn :=
  match r with Ok _ => None | Raise e => Some e end.

(** The errors of the four fetches of a process, in the order of the calls. *)
Definition fetch_errors (process : Process) : list exn :=
  omap id [error_of process.(psutil.cmdline);
           error_of process.(psutil.memory_full_info);
           error_of process.(psutil.cpu_times);
           error_of process.(psutil.cpu_percent)].

(** A process that stays through the scan: no fetch fails. *)
Definition present (process : Process) : bool :=
  is_ok process.(psutil.cmdline) && is_ok process.(psutil.memory_full_info)
  && is_ok process.(psutil.cpu_times) && is_ok process.(psutil.cpu_percent).

(** The only failure of a fetch is the one of a process that has gone. *)
Definition only_vanishes (process : Process) : Prop :=
  Forall (λ e, e = NoSuchProcess) (fetch_errors process).

(** A process that has gone by the time of some fetch. *)
Definition vanished (process : Process) : Prop :=
  only_vanishes process ∧ present process = false.

Definition cmdline_malformed (process : Process) : bool :=
  match process.(psutil.cmdline) with
  | Ok cmdline => malformed cmdline
  | Raise _ => false
  end.

Definition cmdline_matched (process : Process) : bool :=
  match process.(psutil.cmdline) with
  | Ok cmdline => matched cmdline
  | Raise _ => false
  end.

(** The record that the scan yields for a process, if it yields one. *)
Definition record_of (process : Process) : option ProcessMetrics :=
  match except_NoSuchProcess (try_body process) with
  | Ok (Some (airflow_data, mem, cpu_times, cpu_percent)) =>
      Some (make_metrics airflow_data mem cpu_times cpu_percent)
  | _ => None
  end.

(** The eleven gauges that a container owns. *)
Definition gauges (self : MetricsContainer) : list Gauge :=
  [self.(_mem_rss); self.(_mem_vms); self.(_mem_shared); self.(_mem_text);
   self.(_mem_lib); self.(_mem_uss); self.(_mem_swap); self.(_mem_pss);
   self.(_cpu_percent); self.(_cpu_times_user); self.(_cpu_times_system)].

(** The label-value tuple of a record in the gauges of a container. *)
Definition label_tuple (self : MetricsContainer) (metrics : ProcessMetrics)
  : list string :=
  labelvalues self.(_mem_rss) (labels_of self metrics).

(** Some gauge of the container holds a value for the tuple. *)
Definition exposes (self : MetricsContainer) (t : list string) : Prop :=
  ∃ g, g ∈ gauges self ∧ is_Some (g.(_metrics) !! t).

(** The gauge holds the value under the label mapping. *)
Definition holds (g : Gauge) (labels : gmap string string) (value : float)
  : Prop :=
  g.(_metrics) !! labelvalues g labels = Some value.

(** All the gauges of the container were declared with the same names. *)
Definition uniform (self : MetricsContainer) : Prop :=
  ∀ g, g ∈ gauges self → g.(_labelnames) = self.(_mem_rss).(_labelnames).

(** The containers that the module can reach: a fresh one, and one that
    went through a further collection cycle. *)
Inductive reachable : MetricsContainer → Prop :=
  | reachable_init prefix global_labels :
      reachable (__init__ prefix global_labels)
  | reachable_collect self processes :
      reachable self → reachable (collect self processes).1.

(** The name label in the words of the specification: the base, then the
    execution date, then the two optional suffixes. *)
Definition name_spec (metrics : ProcessMetrics) : string :=
  let base :=
    if str_in metrics.(dag) metrics.(operator) then metrics.(operator)
    else metrics.(dag) ++ "." ++ metrics.(operator) in
  base ++ "_" ++ metrics.(exec_date)
       ++ (if metrics.(is_local) then "_local" else EmptyString)
       ++ (if metrics.(is_raw) then "_is_raw" else EmptyString).

(** ** Vocabulary of the further properties *)

(** No character of the string is whitespace. *)
Fixpoint no_space (s : string) : bool :=
  match s with
  | EmptyString => true
  | String c s' => negb (isspace c) && no_space s'
  end.

(** The four label names that every gauge declares first. *)
Definition base_labelnames : list string :=
  ["name"; "dag"; "operator"; "exec_date"].

(** The items of the global labels of a container; none when it has no
    global labels. *)
Definition global_items (self : MetricsContainer) : dict :=
  default [] self.(_global_labels).

(** The five identity fields of a record. *)
Definition identity (metrics : ProcessMetrics)
  : string * string * string * bool * bool :=
  (metrics.(dag), metrics.(operator), metrics.(exec_date),
   metrics.(is_local), metrics.(is_raw)).

(** The ten gauges that [_handle_process_metrics] writes, each with the
    value that it takes from the record. *)
Definition published
  : list ((MetricsContainer → Gauge) * (ProcessMetrics → float)) :=
  [(_mem_rss, λ metrics, float_of_int metrics.(mem_rss));
   (_mem_vms, λ metrics, float_of_int metrics.(mem_vms));
   (_mem_shared, λ metrics, float_of_int metrics.(mem_shared));
   (_mem_text, λ metrics, float_of_int metrics.(mem_text));
   (_mem_uss, λ metrics, float_of_int metrics.(mem_uss));
   (_mem_swap, λ metrics, float_of_int metrics.(mem_swap));
   (_mem_pss, λ metrics, float_of_int metrics.(mem_pss));
   (_cpu_percent, λ metrics, metrics.(cpu_percent));
   (_cpu_times_user, λ metrics, metrics.(cpu_times_user));
   (_cpu_times_system, λ metrics, metrics.(cpu_times_system))].

(** The writes of a sequence of records into the map of one gauge, each
    under the label tuple of its record. *)
Definition writes (self : MetricsContainer) (value : ProcessMetrics → float)
    (m : gmap (list string) float) (records : list ProcessMetrics)
  : gmap (list string) float :=
  foldl (λ m r, <[label_tuple self r := value r]> m) m records.

(** The names of the eleven gauges, before the prefix. *)
Definition gauge_names : list string :=
  ["airflow_process_mem_rss"; "airflow_process_mem_vms";
   "airflow_process_mem_shared"; "airflow_process_mem_text";
   "airflow_process_mem_lib"; "airflow_process_mem_uss";
   "airflow_process_mem_swap"; "airflow_process_mem_pss";
   "airflow_process_cpu_percent"; "airflow_process_cpu_times_user";
   "airflow_process_cpu_times_system"].

(** The four labels that [_handle_process_metrics] takes from a record. *)
Definition base_labels (metrics : ProcessMetrics) : gmap string string :=
  <["exec_date" := metrics.(exec_date)]>
    (<["operator" := metrics.(operator)]>
       (<["dag" := metrics.(dag)]>
          {["name" := _get_process_name metrics]})).

(** The gauge after a label mapping that it accepts was given a value. *)
Definition child_set (g : Gauge) (labels : gmap string string)
    (value : float) : Gauge :=
  {| _name := g.(_name); _documentation := g.(_documentation);
     _labelnames := g.(_labelnames);
     _metrics := <[labelvalues g labels := value]> g.(_metrics) |}.

(** The container after all ten writes of a record. *)
Definition all_written (self : MetricsContainer) (metrics : ProcessMetrics)
  : MetricsContainer :=
  let labels := labels_of self metrics in
  {| _prefix := self.(_prefix);
     _global_labels := self.(_global_labels);
     _mem_rss := child_set self.(_mem_rss) labels
                   (float_of_int metrics.(mem_rss));
     _mem_vms := child_set self.(_mem_vms) labels
                   (float_of_int metrics.(mem_vms));
     _mem_shared := child_set self.(_mem_shared) labels
                      (float_of_int metrics.(mem_shared));
     _mem_text := child_set self.(_mem_text) labels
                    (float_of_int metrics.(mem_text));
     _mem_lib := self.(_mem_lib);
     _mem_uss := child_set self.(_mem_uss) labels
                   (float_of_int metrics.(mem_uss));
     _mem_swap := child_set self.(_mem_swap) labels
                    (float_of_int metrics.(mem_swap));
     _mem_pss := child_set self.(_mem_pss) labels
                   (float_of_int metrics.(mem_pss));
     _cpu_percent := child_set self.(_cpu_percent) labels
                       metrics.(cpu_percent);
     _cpu_times_user := child_set self.(_cpu_times_user) labels
                          metrics.(cpu_times_user);
     _cpu_times_system := child_set self.(_cpu_times_system) labels
                            metrics.(cpu_times_system) |}.

(** The handling of a sequence of records, one after the other, up to the
    first one that raises. *)
Fixpoint handle_all (self : MetricsContainer) (records : list ProcessMetrics)
  : MetricsContainer * result unit :=
  match records with
  | [] => (self, Ok tt)
  | metrics :: rest =>
      match _handle_process_metrics self metrics with
      | (self', Ok _) => handle_all self' rest
      | (self', Raise e) => (self', Raise e)
      end
  end.

(** The label names that the gauges of a container declare differ from
    each other: no key of the global labels occurs twice or is one of the
    four label names of a record. *)
Definition distinct_labelnames (self : MetricsContainer) : Prop :=
  NoDup (base_labelnames ++ (fst <$> global_items self))%list.

(** ** The extraction, token by token *)

Lemma getitem_Ok {A} (l : list A) (i : nat) (x : A) :
  getitem l i = Ok x ↔ l !! i = Some x.
Proof.
  unfold getitem. destruct (l !! i); split; intros H; congruence.
Qed.

Lemma getitem_Raise {A} (l : list A) (i : nat) :
  List.length l ≤ i → getitem l i = Raise IndexError.
Proof.
  intros H. unfold getitem. by rewrite (lookup_ge_None_2 l i H).
Qed.

Lemma on_airflow_run_inv (cmd_arg : string) (d : AirflowData) :
  on_airflow_run cmd_arg = Ok (Some d) →
  ∃ arg3 arg4 arg5,
    split cmd_arg !! 3 = Some arg3 ∧ split cmd_arg !! 4 = Some arg4 ∧
    split cmd_arg !! 5 = Some arg5 ∧
    d = {| ad_dag := arg3; ad_operator := arg4;
           ad_exec_date := slice 5 25 arg5;
           ad_is_local :=
             any ((λ i, String.eqb i "--local") <$> split cmd_arg);
           ad_is_raw :=
             any ((λ i, String.eqb i "--raw") <$> split cmd_arg) |}.
Proof.
  unfold on_airflow_run, getitem.
  destruct (split cmd_arg !! 3) as [arg3|]; [|discriminate].
  destruct (split cmd_arg !! 4) as [arg4|]; [|discriminate].
  destruct (split cmd_arg !! 5) as [arg5|]; [|discriminate].
  simpl. intros [= <-]. by exists arg3, arg4, arg5.
Qed.

Lemma on_airflow_run_short (cmd_arg : string) :
  List.length (split cmd_arg) < 6 →
  on_airflow_run cmd_arg = Raise IndexError.
Proof.
  intros H. unfold on_airflow_run.
  destruct (getitem (split cmd_arg) 3) as [arg3|e3] eqn:E3; simpl;
    [|by destruct (split cmd_arg !! 3) eqn:E; unfold getitem in E3;
        rewrite E in E3; inversion E3].
  destruct (getitem (split cmd_arg) 4) as [arg4|e4] eqn:E4; simpl;
    [|by destruct (split cmd_arg !! 4) eqn:E; unfold getitem in E4;
        rewrite E in E4; inversion E4].
  rewrite getitem_Raise; [done | lia].
Qed.

Lemma on_airflow_run_long (cmd_arg : string) :
  6 ≤ List.length (split cmd_arg) →
  ∃ d, on_airflow_run cmd_arg = Ok (Some d).
Proof.
  intros H. unfold on_airflow_run, getitem.
  destruct (lookup_lt_is_Some_2 (split cmd_arg) 3) as [arg3 ->]; [lia|].
  destruct (lookup_lt_is_Some_2 (split cmd_arg) 4) as [arg4 ->]; [lia|].
  destruct (lookup_lt_is_Some_2 (split cmd_arg) 5) as [arg5 ->]; [lia|].
  simpl. eauto.
Qed.

Lemma for_cmd_arg_matching (cmdline : list string) :
  for_cmd_arg cmdline =
  match matching_token cmdline with
  | Some token => on_airflow_run token
  | None => Ok None
  end.
Proof.
  unfold matching_token.
  induction cmdline as [|cmd_arg rest IH]; simpl; [done|].
  by destruct (str_in "airflow run" cmd_arg).
Qed.

Lemma get_airflow_data_cmdline (process : Process) (cmdline : list string) :
  process.(psutil.cmdline) = Ok cmdline →
  get_airflow_data process =
  if interpreter_ok cmdline then
    match matching_token cmdline with
    | Some token => on_airflow_run token
    | None => Ok None
    end
  else Ok None.
Proof.
  intros H. unfold get_airflow_data. rewrite H. simpl.
  destruct cmdline as [|arg0 rest]; [done|].
  unfold interpreter_ok.
  destruct (startswith arg0 "/usr/bin/python"); simpl; [|done].
  apply (for_cmd_arg_matching (arg0 :: rest)).
Qed.

Lemma get_airflow_data_inv (process : Process) (d : AirflowData) :
  get_airflow_data process = Ok (Some d) →
  ∃ cmdline token,
    process.(psutil.cmdline) = Ok cmdline ∧ interpreter_ok cmdline = true ∧
    matching_token cmdline = Some token ∧
    on_airflow_run token = Ok (Some d).
Proof.
  intros H.
  destruct (psutil.cmdline process) as [cmdline|e] eqn:E;
    [|by unfold get_airflow_data in H; rewrite E in H].
  rewrite (get_airflow_data_cmdline _ _ E) in H.
  destruct (interpreter_ok cmdline) eqn:Ei; [|discriminate].
  destruct (matching_token cmdline) as [token|] eqn:Et; [|discriminate].
  exists cmdline, token. repeat split; done.
Qed.

Lemma get_airflow_data_malformed (process : Process) (cmdline : list string) :
  process.(psutil.cmdline) = Ok cmdline → malformed cmdline = true →
  get_airflow_data process = Raise IndexError.
Proof.
  intros H Hm. rewrite (get_airflow_data_cmdline _ _ H).
  unfold malformed in Hm. apply andb_true_iff in Hm as [-> Hm].
  destruct (matching_token cmdline) as [token|]; [|discriminate].
  apply on_airflow_run_short. by apply Nat.ltb_lt.
Qed.

Lemma get_airflow_data_matched (process : Process) (cmdline : list string) :
  process.(psutil.cmdline) = Ok cmdline → matched cmdline = true →
  ∃ d, get_airflow_data process = Ok (Some d).
Proof.
  intros H Hm. rewrite (get_airflow_data_cmdline _ _ H).
  unfold matched in Hm. apply andb_true_iff in Hm as [-> Hm].
  destruct (matching_token cmdline) as [token|]; [|discriminate].
  apply on_airflow_run_long. by apply Nat.leb_le.
Qed.

Lemma get_airflow_data_unmatched (process : Process) (cmdline : list string) :
  process.(psutil.cmdline) = Ok cmdline →
  matched cmdline = false → malformed cmdline = false →
  get_airflow_data process = Ok None.
Proof.
  intros H Hm Hb. rewrite (get_airflow_data_cmdline _ _ H).
  revert Hm Hb. unfold matched, malformed.
  destruct (interpreter_ok cmdline); [|done].
  destruct (matching_token cmdline) as [token|]; [|done].
  rewrite !andb_true_l. intros Hm%Nat.leb_gt Hb%Nat.ltb_ge. lia.
Qed.

(** ** The scan, process by process *)

Lemma only_vanishes_inv (process : Process) :
  only_vanishes process →
  (∀ e, process.(psutil.cmdline) = Raise e → e = NoSuchProcess) ∧
  (∀ e, process.(psutil.memory_full_info) = Raise e → e = NoSuchProcess) ∧
  (∀ e, process.(psutil.cpu_times) = Raise e → e = NoSuchProcess) ∧
  (∀ e, process.(psutil.cpu_percent) = Raise e → e = NoSuchProcess).
Proof.
  unfold only_vanishes, fetch_errors.
  destruct process as [[?|e1] [?|e2] [?|e3] [?|e4]]; simpl;
    rewrite ?Forall_cons; intros H; repeat split; intros e [= <-]; tauto.
Qed.

(** A process that fails with nothing but [NoSuchProcess] and has no
    malformed command line never ends the scan: it yields a record when it
    stays and is a worker, and is passed over otherwise. *)
Lemma try_body_cases (process : Process) :
  only_vanishes process → cmdline_malformed process = false →
  (present process && cmdline_matched process = true ∧
   ∃ x, except_NoSuchProcess (try_body process) = Ok (Some x)) ∨
  (present process && cmdline_matched process = false ∧
   except_NoSuchProcess (try_body process) = Ok None).
Proof.
  intros (Hc & Hm & Ht & Hp)%only_vanishes_inv Hmal.
  unfold cmdline_malformed, cmdline_matched, present in *. unfold try_body.
  destruct (psutil.cmdline process) as [cmdline|e] eqn:Ec.
  - destruct (matched cmdline) eqn:Ematched.
    + destruct (get_airflow_data_matched _ _ Ec Ematched) as [d ->]. simpl.
      destruct (psutil.memory_full_info process) as [mem|e];
        [|rewrite (Hm e eq_refl); by right].
      destruct (psutil.cpu_times process) as [cpu_times|e];
        [|rewrite (Ht e eq_refl); by right].
      destruct (psutil.cpu_percent process) as [cpu_percent|e];
        [|rewrite (Hp e eq_refl); by right].
      left. simpl. eauto.
    + rewrite (get_airflow_data_unmatched _ _ Ec Ematched Hmal). simpl.
      right. by rewrite andb_false_r.
  - right. unfold get_airflow_data. rewrite Ec, (Hc e eq_refl). done.
Qed.

Lemma try_body_malformed (process : Process) :
  cmdline_malformed process = true →
  except_NoSuchProcess (try_body process) = Raise IndexError.
Proof.
  unfold cmdline_malformed, try_body.
  destruct (psutil.cmdline process) as [cmdline|e] eqn:Ec; [|done].
  intros Hmal. by rewrite (get_airflow_data_malformed _ _ Ec Hmal).
Qed.

Lemma try_body_filtered (process : Process) (cmdline : list string) :
  process.(psutil.cmdline) = Ok cmdline → interpreter_ok cmdline = false →
  except_NoSuchProcess (try_body process) = Ok None.
Proof.
  intros Ec Hi. unfold try_body.
  by rewrite (get_airflow_data_cmdline _ _ Ec), Hi.
Qed.

(** A process that the body passes over leaves no trace in the scan. *)
Lemma scan_skip (process : Process) (before after : list Process) :
  except_NoSuchProcess (try_body process) = Ok None →
  _get_processes_metrics (before ++ process :: after)%list =
  _get_processes_metrics (before ++ after)%list.
Proof.
  intros H. induction before as [|p before IH]; simpl.
  - by rewrite H.
  - by rewrite IH.
Qed.

(** A process on which the body raises ends the scan: nothing after it is
    looked at. *)
Lemma scan_abort (process : Process) (e : exn) (before after : list Process) :
  except_NoSuchProcess (try_body process) = Raise e →
  yielded (_get_processes_metrics (before ++ process :: after)%list) =
  yielded (_get_processes_metrics before) ∧
  is_Some (raised (_get_processes_metrics (before ++ process :: after)%list)).
Proof.
  intros H. induction before as [|p before [IHy IHr]]; simpl.
  - rewrite H. simpl. eauto.
  - destruct (except_NoSuchProcess (try_body p)) as [[[[[d m] ct] cp]|]|e'];
      simpl; [by rewrite IHy | done | eauto].
Qed.

Lemma yielded_record_of (processes : list Process) (r : ProcessMetrics) :
  r ∈ yielded (_get_processes_metrics processes) →
  ∃ process, process ∈ processes ∧ record_of process = Some r.
Proof.
  induction processes as [|p rest IH]; simpl; [by intros ?%elem_of_nil|].
  unfold record_of at 1.
  destruct (except_NoSuchProcess (try_body p)) as [[[[[d m] ct] cp]|]|e] eqn:E;
    simpl.
  - intros [->|Hr]%elem_of_cons.
    + exists p. split; [left|]. unfold record_of. by rewrite E.
    + destruct (IH Hr) as (q & Hq & Hrec). exists q. split; [by right|done].
  - intros Hr. destruct (IH Hr) as (q & Hq & Hrec).
    exists q. split; [by right|done].
  - by intros ?%elem_of_nil.
Qed.

Lemma record_of_inv (process : Process) (r : ProcessMetrics) :
  record_of process = Some r →
  ∃ d mem cpu_times cpu_percent,
    get_airflow_data process = Ok (Some d) ∧
    process.(psutil.memory_full_info) = Ok mem ∧
    process.(psutil.cpu_times) = Ok cpu_times ∧
    process.(psutil.cpu_percent) = Ok cpu_percent ∧
    r = make_metrics d mem cpu_times cpu_percent.
Proof.
  unfold record_of, try_body.
  destruct (get_airflow_data process) as [[d|]|[]]; simpl; try done.
  destruct (psutil.memory_full_info process) as [mem|[]]; simpl; try done.
  destruct (psutil.cpu_times process) as [cpu_times|[]]; simpl; try done.
  destruct (psutil.cpu_percent process) as [cpu_percent|[]]; simpl; try done.
  intros [= <-]. by exists d, mem, cpu_times, cpu_percent.
Qed.

(** ** The container, write by write *)

(** Membership in the list of the gauges of a container. *)
Ltac in_gauges := unfold gauges; repeat constructor.

(** The runs of [_handle_process_metrics]: one for each statement at which
    [labels] may raise, and the one in which all statements return. *)
Ltac handle_paths :=
  cbv beta iota zeta
      delta [_handle_process_metrics block foldr and_then set_gauge labels_set];
  repeat (match goal with
          | |- context [accepts ?g ?l] => destruct (accepts g l) eqn:?
          end;
          cbn [fst snd _prefix _global_labels _mem_rss _mem_vms _mem_shared
               _mem_text _mem_lib _mem_uss _mem_swap _mem_pss _cpu_percent
               _cpu_times_user _cpu_times_system
               put_mem_rss put_mem_vms put_mem_shared put_mem_text put_mem_uss
               put_mem_swap put_mem_pss put_cpu_percent put_cpu_times_user
               put_cpu_times_system]).

Lemma holds_child_set (g : Gauge) (labels : gmap string string)
    (value : float) :
  holds (child_set g labels value) labels value.
Proof. unfold holds, child_set, labelvalues. simpl. apply lookup_insert_eq. Qed.

Lemma child_set_is_Some (g : Gauge) (labels : gmap string string)
    (value : float) (t : list string) :
  is_Some ((child_set g labels value).(_metrics) !! t) →
  t = labelvalues g labels ∨ is_Some (g.(_metrics) !! t).
Proof.
  unfold child_set. simpl. rewrite lookup_insert_is_Some'.
  intros [<-|?]; [by left|by right].
Qed.

(** A write changes nothing but values: what [_reset] leaves of the
    container is the same before and after. *)
Lemma _reset_handle (self : MetricsContainer) (metrics : ProcessMetrics) :
  _reset (_handle_process_metrics self metrics).1 = _reset self.
Proof. handle_paths; reflexivity. Qed.

Lemma handle_outcome (self : MetricsContainer) (metrics : ProcessMetrics) :
  (_handle_process_metrics self metrics).2 = Ok tt ∨
  (_handle_process_metrics self metrics).2 = Raise ValueError.
Proof. handle_paths; auto. Qed.

(** When no statement raises, the container is the one with all ten
    writes. *)
Lemma handle_Ok (self : MetricsContainer) (metrics : ProcessMetrics) :
  (_handle_process_metrics self metrics).2 = Ok tt →
  (_handle_process_metrics self metrics).1 = all_written self metrics.
Proof. handle_paths; by intros. Qed.

(** In a container whose gauges declare the same label names, either the
    first statement raises, or none does. *)
Lemma handle_uniform (self : MetricsContainer) (metrics : ProcessMetrics) :
  uniform self →
  _handle_process_metrics self metrics =
  if accepts self.(_mem_rss) (labels_of self metrics)
  then (all_written self metrics, Ok tt)
  else (self, Raise ValueError).
Proof.
  intros Hu.
  assert (Hsame : ∀ g, g ∈ gauges self →
            accepts g (labels_of self metrics) =
            accepts self.(_mem_rss) (labels_of self metrics)).
  { intros g Hg. unfold accepts. by rewrite (Hu g Hg). }
  destruct (accepts (_mem_rss self) (labels_of self metrics)) eqn:Hacc;
    handle_paths; try reflexivity;
    match goal with
    | H : accepts ?g _ = _ |- _ =>
        rewrite Hsame in H by in_gauges; congruence
    end.
Qed.

Lemma _reset_for (g : gen ProcessMetrics) (self : MetricsContainer)
    (handled : nat) :
  _reset (for_process_metrics self g handled).1 = _reset self.
Proof.
  revert self handled.
  induction g as [| |metrics rest IH]; intros self handled; simpl; [done..|].
  pose proof (_reset_handle self metrics) as Hreset.
  destruct (_handle_process_metrics self metrics) as [self' [[]|e]];
    simpl in *; [by rewrite IH|done].
Qed.

Lemma _mem_lib_for (g : gen ProcessMetrics) (self : MetricsContainer)
    (handled : nat) :
  (for_process_metrics self g handled).1.(_mem_lib) = self.(_mem_lib).
Proof. exact (f_equal _mem_lib (_reset_for g self handled)). Qed.

Lemma clear_gauges (a b : MetricsContainer) :
  _reset a = _reset b →
  clear_metrics <$> gauges a = clear_metrics <$> gauges b.
Proof.
  intros H. exact (f_equal (λ c, fmap (M:=list) clear_metrics (gauges c)) H).
Qed.

Lemma uniform_same_reset (a b : MetricsContainer) :
  _reset a = _reset b → uniform b → uniform a.
Proof.
  intros H Hu g Hg.
  assert (Hin : clear_metrics g ∈ clear_metrics <$> gauges b).
  { rewrite <-(clear_gauges a b H). by apply list_elem_of_fmap_2. }
  apply list_elem_of_fmap in Hin as (g0 & Hclear & Hg0).
  transitivity (_labelnames g0); [exact (f_equal _labelnames Hclear)|].
  rewrite (Hu g0 Hg0).
  exact (eq_sym (f_equal (λ c, _labelnames (_mem_rss c)) H)).
Qed.

Lemma label_tuple_same_reset (a b : MetricsContainer) (r : ProcessMetrics) :
  _reset a = _reset b → label_tuple a r = label_tuple b r.
Proof.
  intros H. unfold label_tuple, labelvalues, labels_of.
  rewrite (f_equal _global_labels H : _global_labels a = _global_labels b).
  by rewrite (f_equal (λ c, _labelnames (_mem_rss c)) H
              : _labelnames (_mem_rss a) = _labelnames (_mem_rss b)).
Qed.

Lemma uniform_init (prefix : option string) (global_labels : option dict) :
  uniform (__init__ prefix global_labels).
Proof.
  intros g Hg. unfold gauges, __init__ in Hg. simpl in Hg.
  repeat (apply elem_of_cons in Hg as [->|Hg]; [reflexivity|]).
  by apply elem_of_nil in Hg.
Qed.

Lemma uniform_handle (self : MetricsContainer) (metrics : ProcessMetrics) :
  uniform self → uniform (_handle_process_metrics self metrics).1.
Proof. apply uniform_same_reset, _reset_handle. Qed.

Lemma uniform_reset (self : MetricsContainer) :
  uniform self → uniform (_reset self).
Proof. by apply uniform_same_reset. Qed.

Lemma uniform_for (g : gen ProcessMetrics) (self : MetricsContainer)
    (handled : nat) :
  uniform self → uniform (for_process_metrics self g handled).1.
Proof. apply uniform_same_reset, _reset_for. Qed.

Lemma exposes_all_written (self : MetricsContainer) (metrics : ProcessMetrics)
    (t : list string) :
  uniform self → exposes (all_written self metrics) t →
  exposes self t ∨ t = label_tuple self metrics.
Proof.
  intros Hu (g & Hg & Hsome). unfold gauges in Hg. simpl in Hg.
  assert (Hstep : ∀ g0 value,
            g0 ∈ gauges self →
            is_Some ((child_set g0 (labels_of self metrics) value).(_metrics)
                     !! t) →
            exposes self t ∨ t = label_tuple self metrics).
  { intros g0 value Hg0 [->|Hold]%child_set_is_Some.
    - right. unfold label_tuple, labelvalues. by rewrite (Hu g0 Hg0).
    - left. by exists g0. }
  repeat (apply elem_of_cons in Hg as [->|Hg];
          [first [ by eapply Hstep; [|exact Hsome]; in_gauges
                 | left; exists self.(_mem_lib); split;
                   [in_gauges | done] ]|]).
  by apply elem_of_nil in Hg.
Qed.

(** What a container exposes after a write was exposed before it, or is
    the tuple of the record written. *)
Lemma exposes_handle (self : MetricsContainer) (metrics : ProcessMetrics)
    (t : list string) :
  uniform self → exposes (_handle_process_metrics self metrics).1 t →
  exposes self t ∨ t = label_tuple self metrics.
Proof.
  intros Hu. rewrite (handle_uniform self metrics Hu).
  destruct (accepts (_mem_rss self) (labels_of self metrics)); simpl.
  - by apply exposes_all_written.
  - by left.
Qed.

Lemma label_tuple_handle (self : MetricsContainer)
    (metrics r : ProcessMetrics) :
  label_tuple (_handle_process_metrics self metrics).1 r = label_tuple self r.
Proof. apply label_tuple_same_reset, _reset_handle. Qed.

Lemma exposes_for (g : gen ProcessMetrics) (self : MetricsContainer)
    (handled : nat) (t : list string) :
  uniform self → exposes (for_process_metrics self g handled).1 t →
  exposes self t ∨ ∃ r, r ∈ yielded g ∧ t = label_tuple self r.
Proof.
  revert self handled.
  induction g as [| |metrics rest IH]; intros self handled Hu; simpl;
    [by left..|].
  pose proof (exposes_handle self metrics t Hu) as Hstep.
  pose proof (uniform_handle self metrics Hu) as Hu'.
  pose proof (label_tuple_handle self metrics) as Htuple.
  destruct (_handle_process_metrics self metrics) as [self' [[]|e]];
    simpl in *.
  - intros [Hold|(r & Hr & ->)]%IH; [|right|done].
    + destruct (Hstep Hold) as [?| ->]; [by left|right].
      exists metrics. split; [left|done].
    + exists r. split; [by right|apply Htuple].
  - intros Hold. destruct (Hstep Hold) as [?| ->]; [by left|right].
    exists metrics. split; [left|done].
Qed.

Lemma gauges_reset_empty (self : MetricsContainer) (g : Gauge) :
  self.(_mem_lib).(_metrics) = ∅ → g ∈ gauges (_reset self) →
  g.(_metrics) = ∅.
Proof.
  intros Hlib Hg. unfold gauges in Hg. simpl in Hg.
  repeat (apply elem_of_cons in Hg as [->|Hg]; [done|]).
  by apply elem_of_nil in Hg.
Qed.

(** What every reachable container satisfies: its gauges share their label
    names, and the gauge that is never written holds nothing. *)
Lemma reachable_inv (self : MetricsContainer) :
  reachable self → uniform self ∧ self.(_mem_lib).(_metrics) = ∅.
Proof.
  induction 1 as [prefix global_labels|self processes _ [IHu IHlib]].
  - split; [apply uniform_init|done].
  - unfold collect. split.
    + by apply uniform_for, uniform_reset.
    + by rewrite _mem_lib_for.
Qed.

(** ** Strings *)

Lemma append_cons (c : ascii) (s t : string) :
  String c s ++ t = String c (s ++ t).
Proof. reflexivity. Qed.

Lemma append_empty_l (s : string) : EmptyString ++ s = s.
Proof. reflexivity. Qed.

Lemma append_empty_r (s : string) : s ++ EmptyString = s.
Proof.
  induction s as [|c s IH]; [done|]. by rewrite append_cons, IH.
Qed.

Lemma length_substring (n m : nat) (s : string) :
  String.length (String.substring n m s) = Nat.min m (String.length s - n).
Proof.
  revert n m. induction s as [|c s IH]; intros [|n] [|m]; simpl; try done.
  by rewrite IH, Nat.sub_0_r.
Qed.

Lemma length_slice (lo hi : nat) (s : string) :
  String.length (slice lo hi s) = Nat.min (hi - lo) (String.length s - lo).
Proof. apply length_substring. Qed.

Lemma any_eqb (s : string) (l : list string) :
  any ((λ i, String.eqb i s) <$> l) = true ↔ s ∈ l.
Proof.
  unfold any. induction l as [|x l IH]; simpl.
  - split; [done|by intros ?%elem_of_nil].
  - rewrite orb_true_iff, IH, elem_of_cons. unfold id.
    rewrite String.eqb_eq. split; (intros [->|?]; [by left|by right]).
Qed.

(** ** Properties of the name label and of the extraction *)

(** C3: the name label is the base ([dag.operator], or the operator alone
    when the dag occurs in it), then [_exec_date], then [_local] for a local
    run, then [_is_raw] for a raw run; the two examples of the specification
    come out as stated, whatever the resource counters. *)
Theorem C3_name_label (metrics : ProcessMetrics) (mem : pfullmem)
    (cpu_times : pcputimes) (cpu_percent : float) :
  _get_process_name metrics = name_spec metrics ∧
  _get_process_name
    (make_metrics {| ad_dag := "etl_pipeline";
                     ad_operator := "etl_pipeline_extract";
                     ad_exec_date := "2023-01-01T00:00:00";
                     ad_is_local := false; ad_is_raw := false |}
                  mem cpu_times cpu_percent)
  = "etl_pipeline_extract_2023-01-01T00:00:00" ∧
  _get_process_name
    (make_metrics {| ad_dag := "reporting"; ad_operator := "send_email";
                     ad_exec_date := "2023-02-02T00:00:00";
                     ad_is_local := true; ad_is_raw := false |}
                  mem cpu_times cpu_percent)
  = "reporting.send_email_2023-02-02T00:00:00_local".
Proof.
  split; [|split; reflexivity].
  unfold _get_process_name, name_spec, join, list_append.
  destruct (str_in (dag metrics) (operator metrics)),
    (is_local metrics), (is_raw metrics); simpl;
    rewrite ?append_cons, ?append_empty_l, ?append_empty_r; reflexivity.
Qed.

(** C2, as amended: on the token of the example the extraction reads the
    sub-tokens at the indices 3, 4 and 5 counted from zero, so the dag is
    [my_task], the operator is the date sub-token, the execution date is the
    slice of [--local], and only the local flag is set. *)
Theorem C2_extraction_of_claimed_token (process : Process)
    (cmdline : list string) :
  process.(psutil.cmdline) = Ok cmdline →
  interpreter_ok cmdline = true →
  matching_token cmdline = Some sample.claimed_token →
  get_airflow_data process =
    Ok (Some {| ad_dag := "my_task";
                ad_operator := "2023-03-03T00:00:00+00:00";
                ad_exec_date := "al";
                ad_is_local := true; ad_is_raw := false |}) ∧
  split sample.claimed_token !! 5 = Some "--local" ∧
  slice 5 25 "--local" = "al".
Proof.
  intros Ec Hi Ht. rewrite (get_airflow_data_cmdline _ _ Ec), Hi, Ht.
  repeat split; reflexivity.
Qed.

(** C8, as amended: the execution date of a yielded record is the slice
    from 5 to 25 (end excluded) of the sub-token at index 5, counted from
    zero, of the matching token; it has 20 characters when that sub-token
    has at least 25, and fewer otherwise. *)
Theorem C8_exec_date_slice (processes : list Process) (r : ProcessMetrics) :
  r ∈ yielded (_get_processes_metrics processes) →
  ∃ process cmdline token arg5,
    process ∈ processes ∧
    process.(psutil.cmdline) = Ok cmdline ∧
    matching_token cmdline = Some token ∧
    split token !! 5 = Some arg5 ∧
    r.(exec_date) = slice 5 25 arg5 ∧
    String.length r.(exec_date) = Nat.min 20 (String.length arg5 - 5).
Proof.
  intros (process & Hin & Hrec)%yielded_record_of.
  apply record_of_inv in Hrec as (d & mem & ct & cp & Hd & _ & _ & _ & ->).
  apply get_airflow_data_inv in Hd as (cmdline & token & Ec & _ & Ht & Hrun).
  apply on_airflow_run_inv in Hrun as (arg3 & arg4 & arg5 & _ & _ & H5 & ->).
  exists process, cmdline, token, arg5. simpl.
  repeat split; try done. apply length_slice.
Qed.

(** C10: the local flag is set exactly when some sub-token of the matching
    token is [--local], and the raw flag exactly when some sub-token of it
    is [--raw]; no other token of the command line is looked at. *)
Theorem C10_flags_of_matching_token (process : Process) (d : AirflowData) :
  get_airflow_data process = Ok (Some d) →
  ∃ cmdline token,
    process.(psutil.cmdline) = Ok cmdline ∧
    matching_token cmdline = Some token ∧
    (d.(ad_is_local) = true ↔ "--local" ∈ split token) ∧
    (d.(ad_is_raw) = true ↔ "--raw" ∈ split token).
Proof.
  intros (cmdline & token & Ec & _ & Ht & Hrun)%get_airflow_data_inv.
  apply on_airflow_run_inv in Hrun as (arg3 & arg4 & arg5 & _ & _ & _ & ->).
  exists cmdline, token. simpl. repeat split; try done; by apply any_eqb.
Qed.

(** C9: a process whose argument vector is empty, or starts with a token
    that does not start with the interpreter path, gives no record, whatever
    its later tokens are: the scan goes on as if it were not there. *)
Theorem C9_interpreter_filter (process : Process) (cmdline : list string)
    (before after : list Process) :
  process.(psutil.cmdline) = Ok cmdline →
  (cmdline = [] ∨
   ∃ arg0 rest, cmdline = arg0 :: rest ∧
                startswith arg0 "/usr/bin/python" = false) →
  get_airflow_data process = Ok None ∧
  record_of process = None ∧
  _get_processes_metrics (before ++ process :: after)%list =
  _get_processes_metrics (before ++ after)%list.
Proof.
  intros Ec Hfilter.
  assert (Hi : interpreter_ok cmdline = false).
  { by destruct Hfilter as [->|(arg0 & rest & -> & H)]. }
  pose proof (try_body_filtered _ _ Ec Hi) as Hbody.
  split; [by rewrite (get_airflow_data_cmdline _ _ Ec), Hi|].
  split; [unfold record_of; by rewrite Hbody|by apply scan_skip].
Qed.

(** ** Properties of the scan *)

(** C4, as amended: a process that has gone, whose command line (if it was
    read) is not malformed, does not stop the scan, which goes on as if the
    process were not there; a process whose matching token has fewer than
    six sub-tokens raises [IndexError], which ends the scan: the records
    yielded are those of the processes before it. *)
Theorem C4_scan_resilience (process : Process) (before after : list Process) :
  (vanished process → cmdline_malformed process = false →
   _get_processes_metrics (before ++ process :: after)%list =
   _get_processes_metrics (before ++ after)%list) ∧
  (cmdline_malformed process = true →
   _get_processes_metrics (process :: after) = GRaise IndexError ∧
   yielded (_get_processes_metrics (before ++ process :: after)%list) =
   yielded (_get_processes_metrics before) ∧
   is_Some (raised (_get_processes_metrics (before ++ process :: after)%list))).
Proof.
  split.
  - intros [Hv Hgone] Hmal. apply scan_skip.
    destruct (try_body_cases process Hv Hmal) as [[Hp _]|[_ H]]; [|done].
    rewrite Hgone in Hp. done.
  - intros Hbody%try_body_malformed. split.
    + simpl. by rewrite Hbody.
    + by apply scan_abort with IndexError.
Qed.

(** C6, as amended: when the only failures are those of processes that have
    gone, and no command line is malformed, the scan ends without an
    exception, a process that has gone gives no record, and the number of
    records is the number of workers that stayed through their fetches. *)
Theorem C6_vanished_processes (processes : list Process) :
  Forall only_vanishes processes →
  Forall (λ process, cmdline_malformed process = false) processes →
  raised (_get_processes_metrics processes) = None ∧
  (∀ process, process ∈ processes → present process = false →
              record_of process = None) ∧
  yielded (_get_processes_metrics processes) =
    omap record_of (List.filter present processes) ∧
  List.length (yielded (_get_processes_metrics processes)) =
    List.length
      (List.filter (λ process, present process && cmdline_matched process)
                   processes).
Proof.
  induction processes as [|p rest IH]; intros Hv Hmal.
  { repeat split; try done. by intros ? ?%elem_of_nil. }
  apply Forall_cons in Hv as [Hvp Hv]. apply Forall_cons in Hmal as [Hmp Hmal].
  destruct (IH Hv Hmal) as (IHr & IHn & IHy & IHl). clear IH.
  assert (Hnone : present p = false → record_of p = None).
  { intros Hgone. unfold record_of.
    destruct (try_body_cases p Hvp Hmp) as [[Hp _]|[_ ->]]; [|done].
    by rewrite Hgone in Hp. }
  split; [|split; [|split]].
  - simpl. destruct (try_body_cases p Hvp Hmp)
      as [[_ [[[[d m] ct] cp] ->]]|[_ ->]]; done.
  - intros q [->|Hq]%elem_of_cons; [done|by apply IHn].
  - simpl. destruct (try_body_cases p Hvp Hmp)
      as [[[Hp _]%andb_true_iff [[[[d m] ct] cp] Hbody]]|[Hpm Hbody]].
    + rewrite Hbody, Hp. simpl. unfold record_of at 1. rewrite Hbody.
      simpl. by rewrite IHy.
    + rewrite Hbody. destruct (present p); [|done].
      simpl. unfold record_of at 1. by rewrite Hbody.
  - simpl. destruct (try_body_cases p Hvp Hmp)
      as [[-> [[[[d m] ct] cp] ->]]|[-> ->]]; simpl; by rewrite IHl.
Qed.

(** ** Properties of the collection cycle *)

(** C1: in a container that the module can reach, the reset at the start of
    a cycle leaves every one of the eleven gauges empty, and every tuple that
    some gauge exposes after the cycle is the tuple of a record of a process
    that is live in this cycle; so a tuple that was exposed before, and that
    no live process gives any more, is gone after the cycle. *)
Theorem C1_stale_series_eliminated (self : MetricsContainer)
    (processes : list Process) :
  reachable self →
  (∀ g, g ∈ gauges (_reset self) → g.(_metrics) = ∅) ∧
  (∀ t, exposes (collect self processes).1 t →
        ∃ process r, process ∈ processes ∧ record_of process = Some r ∧
                     t = label_tuple self r) ∧
  (∀ t, exposes self t →
        (∀ process r, process ∈ processes → record_of process = Some r →
                      label_tuple self r ≠ t) →
        ¬ exposes (collect self processes).1 t).
Proof.
  intros [Hu Hlib]%reachable_inv.
  assert (Hnew : ∀ t, exposes (collect self processes).1 t →
            ∃ process r, process ∈ processes ∧ record_of process = Some r ∧
                         t = label_tuple self r).
  { intros t Hexp. unfold collect in Hexp.
    apply exposes_for in Hexp as [(g & Hg & Hsome)|(r & Hr & ->)];
      [|..|by apply uniform_reset].
    - rewrite (gauges_reset_empty self g Hlib Hg), lookup_empty in Hsome.
      by destruct Hsome.
    - apply yielded_record_of in Hr as (process & Hin & Hrec).
      by exists process, r. }
  split; [intros g; by apply gauges_reset_empty|].
  split; [done|].
  intros t _ Hstale (process & r & Hin & Hrec & ->)%Hnew.
  by eapply Hstale.
Qed.

Lemma handle_accepted (self : MetricsContainer) (metrics : ProcessMetrics) :
  uniform self →
  accepts self.(_mem_rss) (labels_of self metrics) = true →
  _handle_process_metrics self metrics = (all_written self metrics, Ok tt).
Proof. intros Hu Hacc. by rewrite (handle_uniform self metrics Hu), Hacc. Qed.

Lemma keywords_elem_of (labels : gmap string string) (k : string) :
  k ∈ keywords labels ↔ is_Some (labels !! k).
Proof.
  unfold keywords. rewrite list_elem_of_fmap. split.
  - intros ([k' v] & -> & Hin). exists v. by apply elem_of_map_to_list.
  - intros [v Hv]. exists (k, v). split; [done|by apply elem_of_map_to_list].
Qed.

Lemma sorted_eq (l1 l2 : list string) : sorted l1 = sorted l2 ↔ l1 ≡ₚ l2.
Proof.
  unfold sorted. split.
  - intros H. by rewrite <-(merge_sort_Permutation String.le l1), H,
      (merge_sort_Permutation String.le l2).
  - intros H. apply (Sorted_unique String.le); [apply Sorted_merge_sort, _..|].
    by rewrite !merge_sort_Permutation.
Qed.

Lemma accepts_true (g : Gauge) (labels : gmap string string) :
  accepts g labels = true ↔ keywords labels ≡ₚ g.(_labelnames).
Proof. unfold accepts. by rewrite bool_decide_eq_true, sorted_eq. Qed.

Lemma dict_update_snoc (d : gmap string string) (items : dict)
    (k v : string) :
  dict_update d (items ++ [(k, v)])%list = <[k := v]> (dict_update d items).
Proof. unfold dict_update. by rewrite foldl_app. Qed.

Lemma dict_update_is_Some (d : gmap string string) (items : dict)
    (k : string) :
  is_Some (dict_update d items !! k) ↔ is_Some (d !! k) ∨ k ∈ fst <$> items.
Proof.
  induction items as [|[k0 v0] items IH] using rev_ind.
  - split; [by left|]. by intros [?|?%elem_of_nil].
  - rewrite dict_update_snoc, lookup_insert_is_Some', IH, fmap_app,
      elem_of_app. simpl. rewrite list_elem_of_singleton.
    split; [intros [ -> | [?|?]]|intros [?|[?| -> ]]]; auto.
Qed.

Lemma labels_of_items (self : MetricsContainer) (r : ProcessMetrics) :
  labels_of self r = dict_update (base_labels r) (global_items self).
Proof.
  unfold labels_of, global_items, base_labels.
  by destruct (_global_labels self) as [[|kv items]|].
Qed.

Lemma base_labels_is_Some (r : ProcessMetrics) (k : string) :
  is_Some (base_labels r !! k) ↔ k ∈ base_labelnames.
Proof.
  unfold base_labels, base_labelnames.
  rewrite !lookup_insert_is_Some', lookup_singleton_is_Some, !elem_of_cons,
    elem_of_nil.
  split; [intros [ <- | [ <- | [ <- | <- ]]]
         |intros [ -> | [ -> | [ -> | [ -> | []]]]]]; auto 10.
Qed.

Lemma keywords_labels_of (self : MetricsContainer) (r : ProcessMetrics)
    (k : string) :
  k ∈ keywords (labels_of self r) ↔
  k ∈ (base_labelnames ++ (fst <$> global_items self))%list.
Proof.
  by rewrite keywords_elem_of, labels_of_items, dict_update_is_Some,
    base_labels_is_Some, elem_of_app.
Qed.

Lemma collect_reset (self : MetricsContainer) (processes : list Process) :
  _reset (collect self processes).1 = _reset self.
Proof. unfold collect. by rewrite _reset_for. Qed.

Lemma reachable_labelnames (self : MetricsContainer) (g : Gauge) :
  reachable self → g ∈ gauges self →
  g.(_labelnames) = (base_labelnames ++ (fst <$> global_items self))%list.
Proof.
  intros Hreach. revert g.
  induction Hreach as [prefix global_labels|self processes _ IH]; intros g Hg.
  - unfold gauges, __init__ in Hg. simpl in Hg. unfold global_items. simpl.
    repeat (apply elem_of_cons in Hg as [->|Hg];
            [by destruct global_labels as [[|kv items]|]|]).
    by apply elem_of_nil in Hg.
  - pose proof (collect_reset self processes) as Hreset.
    unfold global_items in *.
    rewrite (f_equal _global_labels Hreset
             : _global_labels (collect self processes).1 = _global_labels self).
    assert (Hin : clear_metrics g ∈ clear_metrics <$> gauges self).
    { rewrite <-(clear_gauges _ _ Hreset). by apply list_elem_of_fmap_2. }
    apply list_elem_of_fmap in Hin as (g0 & Hclear & Hg0).
    rewrite <-(IH g0 Hg0). exact (f_equal _labelnames Hclear).
Qed.

(** In a reachable container whose label names differ from each other,
    every gauge accepts the label mapping of every record. *)
Lemma reachable_accepts (self : MetricsContainer) (r : ProcessMetrics)
    (g : Gauge) :
  reachable self → distinct_labelnames self → g ∈ gauges self →
  accepts g (labels_of self r) = true.
Proof.
  intros Hreach Hdistinct Hg. apply accepts_true.
  rewrite (reachable_labelnames self g Hreach Hg).
  apply NoDup_Permutation; [apply NoDup_fst_map_to_list|exact Hdistinct|].
  intros k. apply keywords_labels_of.
Qed.

(** In a reachable container in which a key of the global labels is one of
    the four label names of a record, no gauge accepts the label mapping of
    a record. *)
Lemma reachable_rejects (self : MetricsContainer) (r : ProcessMetrics)
    (g : Gauge) (k : string) :
  reachable self → k ∈ fst <$> global_items self → k ∈ base_labelnames →
  g ∈ gauges self → accepts g (labels_of self r) = false.
Proof.
  intros Hreach Hkey Hbase Hg. apply not_true_iff_false.
  rewrite accepts_true, (reachable_labelnames self g Hreach Hg).
  intros Hperm.
  assert (Hnodup : NoDup (base_labelnames ++ (fst <$> global_items self))%list).
  { rewrite <-Hperm. apply NoDup_fst_map_to_list. }
  apply NoDup_app in Hnodup as (_ & Hdisjoint & _).
  by apply (Hdisjoint k).
Qed.

(** C5: when the handling of a record returns, it has set ten gauges under
    the label mapping of the record, each to the value of its field, and it
    returns in every reachable container whose label names differ from each
    other; the eleventh published gauge, [_mem_lib], is left as it was in
    every case, so that it holds nothing after any cycle of a fresh
    container. *)
Theorem C5_published_gauges (self : MetricsContainer)
    (metrics : ProcessMetrics) :
  let after := (_handle_process_metrics self metrics).1 in
  let labels := labels_of self metrics in
  ((_handle_process_metrics self metrics).2 = Ok tt →
   holds after.(_mem_rss) labels (float_of_int metrics.(mem_rss)) ∧
   holds after.(_mem_vms) labels (float_of_int metrics.(mem_vms)) ∧
   holds after.(_mem_shared) labels (float_of_int metrics.(mem_shared)) ∧
   holds after.(_mem_text) labels (float_of_int metrics.(mem_text)) ∧
   holds after.(_mem_uss) labels (float_of_int metrics.(mem_uss)) ∧
   holds after.(_mem_swap) labels (float_of_int metrics.(mem_swap)) ∧
   holds after.(_mem_pss) labels (float_of_int metrics.(mem_pss)) ∧
   holds after.(_cpu_percent) labels metrics.(cpu_percent) ∧
   holds after.(_cpu_times_user) labels metrics.(cpu_times_user) ∧
   holds after.(_cpu_times_system) labels metrics.(cpu_times_system)) ∧
  (reachable self → distinct_labelnames self →
   (_handle_process_metrics self metrics).2 = Ok tt) ∧
  after.(_mem_lib) = self.(_mem_lib) ∧
  (∀ prefix global_labels processes,
     (collect (__init__ prefix global_labels) processes).1
       .(_mem_lib).(_metrics) = ∅).
Proof.
  simpl. split; [|split; [|split]].
  - intros Hok. rewrite (handle_Ok self metrics Hok).
    repeat split; apply holds_child_set.
  - intros Hreach Hdistinct.
    rewrite handle_accepted; [done|by apply reachable_inv|].
    apply reachable_accepts; [done..|in_gauges].
  - exact (f_equal _mem_lib (_reset_handle self metrics)).
  - intros prefix global_labels processes. unfold collect.
    by rewrite _mem_lib_for.
Qed.

(** C7: a second cycle on the same processes leaves the container, and the
    outcome of the cycle, as the first cycle left them. *)
Theorem C7_collect_idempotent (self : MetricsContainer)
    (processes : list Process) :
  collect (collect self processes).1 processes = collect self processes.
Proof.
  unfold collect. by rewrite _reset_for.
Qed.

(** ** Further properties of the extraction *)

Lemma no_space_append (s t : string) :
  no_space (s ++ t) = no_space s && no_space t.
Proof.
  induction s as [|c s IH]; [done|].
  rewrite append_cons. simpl. by rewrite IH, andb_assoc.
Qed.

Lemma no_space_substring (n m : nat) (s : string) :
  no_space s = true → no_space (String.substring n m s) = true.
Proof.
  revert n m. induction s as [|c s IH]; intros [|n] [|m]; simpl; try done.
  - intros [-> H]%andb_true_iff. simpl. by apply IH.
  - intros [_ H]%andb_true_iff. by apply IH.
  - intros [_ H]%andb_true_iff. by apply IH.
Qed.

(** The sub-tokens that [split] gives are not empty and hold no
    whitespace. *)
Lemma split_from_tokens (s word x : string) :
  no_space word = true → x ∈ split_from word s →
  x ≠ EmptyString ∧ no_space x = true.
Proof.
  revert word. induction s as [|c s IH]; intros word Hword; simpl.
  - destruct word as [|c' word']; [by intros ?%elem_of_nil|].
    by intros ->%list_elem_of_singleton.
  - destruct (isspace c) eqn:Ec.
    + destruct word as [|c' word'].
      * by apply IH.
      * intros [->|Hx]%elem_of_cons; [done|by apply (IH EmptyString)].
    + apply IH. rewrite no_space_append, Hword. simpl. by rewrite Ec.
Qed.

Lemma split_tokens (s x : string) :
  x ∈ split s → x ≠ EmptyString ∧ no_space x = true.
Proof. by apply split_from_tokens. Qed.

(** X1: the fields that the extraction returns hold no whitespace; the dag
    and the operator are not empty, and the execution date has at most 20
    characters. *)
Theorem X1_extracted_fields (process : Process) (d : AirflowData) :
  get_airflow_data process = Ok (Some d) →
  d.(ad_dag) ≠ EmptyString ∧ no_space d.(ad_dag) = true ∧
  d.(ad_operator) ≠ EmptyString ∧ no_space d.(ad_operator) = true ∧
  no_space d.(ad_exec_date) = true ∧
  String.length d.(ad_exec_date) ≤ 20.
Proof.
  intros (cmdline & token & _ & _ & _ & Hrun)%get_airflow_data_inv.
  apply on_airflow_run_inv in Hrun as (arg3 & arg4 & arg5 & H3 & H4 & H5 & ->).
  apply list_elem_of_lookup_2, split_tokens in H3 as [? ?].
  apply list_elem_of_lookup_2, split_tokens in H4 as [? ?].
  apply list_elem_of_lookup_2, split_tokens in H5 as [? ?].
  simpl. repeat split; try done.
  - by apply no_space_substring.
  - rewrite length_slice. lia.
Qed.

Lemma interpreter_ok_upto (before : list string) (token : string)
    (after : list string) :
  interpreter_ok (before ++ token :: after)%list =
  interpreter_ok (before ++ [token])%list.
Proof. by destruct before. Qed.

Lemma matching_token_upto (before : list string) (token : string) :
  str_in "airflow run" token = true →
  ∀ after, matching_token (before ++ token :: after)%list =
           matching_token (before ++ [token])%list.
Proof.
  intros Htoken after. unfold matching_token.
  induction before as [|t before IH]; simpl.
  - by rewrite Htoken.
  - by destruct (str_in "airflow run" t).
Qed.

(** X2: the tokens after the first one that contains the marker have no
    part in the result, whatever they hold. *)
Theorem X2_first_marker_token_decides (process1 process2 : Process)
    (before after1 after2 : list string) (token : string) :
  process1.(psutil.cmdline) = Ok (before ++ token :: after1)%list →
  process2.(psutil.cmdline) = Ok (before ++ token :: after2)%list →
  str_in "airflow run" token = true →
  get_airflow_data process1 = get_airflow_data process2.
Proof.
  intros E1 E2 Htoken.
  rewrite (get_airflow_data_cmdline _ _ E1), (get_airflow_data_cmdline _ _ E2).
  pose proof (interpreter_ok_upto before token) as Hi.
  pose proof (matching_token_upto before token Htoken) as Hm.
  by rewrite (Hi after1), (Hi after2), (Hm after1), (Hm after2).
Qed.

(** ** Further properties of the scan *)

Lemma scan_raise (process : Process) (e : exn) (after : list Process) :
  except_NoSuchProcess (try_body process) = Raise e →
  _get_processes_metrics (process :: after) = GRaise e.
Proof. intros H. simpl. by rewrite H. Qed.

(** X3: the resource counters are fetched for workers only: a process whose
    command line is neither that of a worker nor malformed is passed over,
    whatever its other fetches would do. *)
Theorem X3_no_fetch_for_non_workers (process : Process)
    (cmdline : list string) (before after : list Process) :
  process.(psutil.cmdline) = Ok cmdline →
  matched cmdline = false → malformed cmdline = false →
  record_of process = None ∧
  _get_processes_metrics (before ++ process :: after)%list =
  _get_processes_metrics (before ++ after)%list.
Proof.
  intros Ec Hm Hmal.
  assert (Hbody : except_NoSuchProcess (try_body process) = Ok None).
  { unfold try_body. by rewrite (get_airflow_data_unmatched _ _ Ec Hm Hmal). }
  split; [unfold record_of; by rewrite Hbody|by apply scan_skip].
Qed.

(** X4: for a process whose command line cannot be read, and for a worker,
    the first fetch that fails decides: [NoSuchProcess] makes the scan pass
    over the process, any other exception ends the scan with it. *)
Theorem X4_first_failure_decides (process : Process) (e : exn)
    (errors : list exn) (after : list Process) :
  is_ok process.(psutil.cmdline) = false ∨ cmdline_matched process = true →
  fetch_errors process = e :: errors →
  (e = NoSuchProcess →
   _get_processes_metrics (process :: after) = _get_processes_metrics after) ∧
  (e ≠ NoSuchProcess →
   _get_processes_metrics (process :: after) = GRaise e).
Proof.
  intros Hkind Herrors.
  assert (Hbody : try_body process = Raise e).
  { unfold try_body, fetch_errors, cmdline_matched in *.
    destruct (psutil.cmdline process) as [cmdline|e0] eqn:Ec.
    - destruct Hkind as [?|Hm]; [done|].
      destruct (get_airflow_data_matched _ _ Ec Hm) as [d ->]. simpl in *.
      destruct (psutil.memory_full_info process); simpl in *;
        [|by injection Herrors as -> _].
      destruct (psutil.cpu_times process); simpl in *;
        [|by injection Herrors as -> _].
      destruct (psutil.cpu_percent process); simpl in *;
        [done|by injection Herrors as -> _].
    - simpl in Herrors. injection Herrors as -> _.
      unfold get_airflow_data. by rewrite Ec. }
  split.
  - intros ->. apply (scan_skip process []). by rewrite Hbody.
  - intros Hne. apply scan_raise. rewrite Hbody. by destruct e.
Qed.

Lemma scan_app (first second : list Process) :
  yielded (_get_processes_metrics (first ++ second)%list) =
    (yielded (_get_processes_metrics first) ++
     match raised (_get_processes_metrics first) with
     | None => yielded (_get_processes_metrics second)
     | Some _ => []
     end)%list ∧
  raised (_get_processes_metrics (first ++ second)%list) =
    match raised (_get_processes_metrics first) with
    | None => raised (_get_processes_metrics second)
    | Some e => Some e
    end.
Proof.
  induction first as [|p first [IHy IHr]]; simpl; [done|].
  destruct (except_NoSuchProcess (try_body p)) as [[[[[d m] ct] cp]|]|e];
    simpl; [by rewrite IHy, IHr|done..].
Qed.

(** X5: the scan of a list of processes followed by another yields the
    records of the first scan and then, when the first scan did not raise,
    those of the second; it ends as the first scan when that raised, and as
    the second otherwise. *)
Theorem X5_scan_of_concatenation (first second : list Process) :
  yielded (_get_processes_metrics (first ++ second)%list) =
    (yielded (_get_processes_metrics first) ++
     match raised (_get_processes_metrics first) with
     | None => yielded (_get_processes_metrics second)
     | Some _ => []
     end)%list ∧
  raised (_get_processes_metrics (first ++ second)%list) =
    match raised (_get_processes_metrics first) with
    | None => raised (_get_processes_metrics second)
    | Some e => Some e
    end.
Proof. apply scan_app. Qed.

(** ** Further properties of the collection cycle *)

Lemma for_process_metrics_container (g : gen ProcessMetrics)
    (self : MetricsContainer) (handled : nat) :
  (for_process_metrics self g handled).1 = (handle_all self (yielded g)).1.
Proof.
  revert self handled.
  induction g as [| |metrics rest IH]; intros self handled; simpl; [done..|].
  destruct (_handle_process_metrics self metrics) as [self' [[]|e]];
    [apply IH|done].
Qed.

Lemma for_process_metrics_outcome (g : gen ProcessMetrics)
    (self : MetricsContainer) (handled : nat) :
  (for_process_metrics self g handled).2 =
  match (handle_all self (yielded g)).2 with
  | Raise e => Raise e
  | Ok _ =>
      match raised g with
      | None => Ok (handled + List.length (yielded g))
      | Some e => Raise e
      end
  end.
Proof.
  revert self handled.
  induction g as [| |metrics rest IH]; intros self handled; simpl.
  - by rewrite Nat.add_0_r.
  - done.
  - destruct (_handle_process_metrics self metrics) as [self' [[]|e]];
      [|done].
    rewrite IH. destruct (handle_all self' (yielded rest)).2; [|done].
    destruct (raised rest); [done|]. f_equal. lia.
Qed.

(** In a container whose gauges accept the label mapping of every record,
    no record raises. *)
Lemma handle_all_accepted (records : list ProcessMetrics)
    (self : MetricsContainer) :
  uniform self →
  (∀ r, accepts self.(_mem_rss) (labels_of self r) = true) →
  (handle_all self records).2 = Ok tt.
Proof.
  revert self. induction records as [|r records IH]; intros self Hu Hacc;
    simpl; [done|].
  pose proof (uniform_handle self r Hu) as Hu'.
  rewrite (handle_accepted self r Hu (Hacc r)) in *. cbn [fst] in *.
  by apply IH.
Qed.

Lemma accepts_reset (self : MetricsContainer) (r : ProcessMetrics) :
  accepts (_reset self).(_mem_rss) (labels_of (_reset self) r) =
  accepts self.(_mem_rss) (labels_of self r).
Proof. reflexivity. Qed.

(** X7: when the scan raises at a process, the cycle leaves the container
    as a cycle on the processes before it alone: the gauges were reset, the
    records of the processes before are written as far as the registry took
    them, and nothing of the processes after it; the cycle raises, and in a
    reachable container whose label names differ from each other it raises
    that exception when no earlier process raised. *)
Theorem X7_aborted_cycle (self : MetricsContainer) (process : Process)
    (e : exn) (before after : list Process) :
  _get_processes_metrics [process] = GRaise e →
  (collect self (before ++ process :: after)%list).1 =
    (collect self before).1 ∧
  (∃ e', (collect self (before ++ process :: after)%list).2 = Raise e') ∧
  (reachable self → distinct_labelnames self →
   raised (_get_processes_metrics before) = None →
   (collect self (before ++ process :: after)%list).2 = Raise e).
Proof.
  intros Hp.
  assert (Hbody : except_NoSuchProcess (try_body process) = Raise e).
  { simpl in Hp.
    by destruct (except_NoSuchProcess (try_body process))
      as [[[[[d m] ct] cp]|]|e0]; inversion Hp. }
  destruct (scan_app before (process :: after)) as [Hy Hr].
  rewrite (scan_raise _ _ _ Hbody) in Hy, Hr. simpl in Hy, Hr.
  assert (Hy' : yielded (_get_processes_metrics (before ++ process :: after)) =
                yielded (_get_processes_metrics before)).
  { rewrite Hy. by destruct (raised (_get_processes_metrics before));
      rewrite app_nil_r. }
  unfold collect.
  rewrite !for_process_metrics_container, !for_process_metrics_outcome.
  rewrite Hy', Hr. split; [done|]. split.
  - destruct (handle_all _ _).2; [|by eauto].
    destruct (raised (_get_processes_metrics before)); eauto.
  - intros Hreach Hdistinct ->.
    rewrite handle_all_accepted; [done|..].
    + by apply uniform_reset, reachable_inv.
    + intros r. rewrite accepts_reset.
      apply reachable_accepts; [done..|in_gauges].
Qed.

(** ** What the gauges hold after a cycle *)

Lemma published_in_gauges (self : MetricsContainer)
    (proj : MetricsContainer → Gauge) (value : ProcessMetrics → float) :
  (proj, value) ∈ published → proj self ∈ gauges self.
Proof.
  unfold published. intros H.
  repeat (apply elem_of_cons in H as [[= -> ->]|H]; [in_gauges|]).
  by apply elem_of_nil in H.
Qed.

Lemma published_reset (self : MetricsContainer)
    (proj : MetricsContainer → Gauge) (value : ProcessMetrics → float) :
  (proj, value) ∈ published → (proj (_reset self)).(_metrics) = ∅.
Proof.
  unfold published. intros H.
  repeat (apply elem_of_cons in H as [[= -> ->]|H]; [done|]).
  by apply elem_of_nil in H.
Qed.

Lemma published_all_written (self : MetricsContainer)
    (metrics : ProcessMetrics)
    (proj : MetricsContainer → Gauge) (value : ProcessMetrics → float) :
  uniform self → (proj, value) ∈ published →
  (proj (all_written self metrics)).(_metrics) =
  <[label_tuple self metrics := value metrics]> (proj self).(_metrics).
Proof.
  intros Hu H.
  assert (Hkey : ∀ g, g ∈ gauges self →
            labelvalues g (labels_of self metrics) = label_tuple self metrics).
  { intros g Hg. unfold label_tuple, labelvalues. by rewrite (Hu g Hg). }
  unfold published in H.
  repeat (apply elem_of_cons in H as [[= -> ->]|H];
          [cbn [all_written child_set _metrics _mem_rss _mem_vms
                _mem_shared _mem_text _mem_uss _mem_swap _mem_pss _cpu_percent
                _cpu_times_user _cpu_times_system];
           rewrite Hkey; [done|in_gauges]|]).
  by apply elem_of_nil in H.
Qed.

Lemma published_for (proj : MetricsContainer → Gauge)
    (value : ProcessMetrics → float) (g : gen ProcessMetrics) :
  (proj, value) ∈ published →
  ∀ self handled, uniform self →
    (∀ r, accepts self.(_mem_rss) (labels_of self r) = true) →
    (proj (for_process_metrics self g handled).1).(_metrics) =
    writes self value (proj self).(_metrics) (yielded g).
Proof.
  intros Hp. induction g as [| |metrics rest IH]; intros self handled Hu Hacc;
    simpl; [done..|].
  pose proof (uniform_handle self metrics Hu) as Hu'.
  rewrite (handle_accepted self metrics Hu (Hacc metrics)) in *.
  cbn [fst] in *. rewrite (IH _ _ Hu' Hacc).
  by rewrite (published_all_written _ _ _ _ Hu Hp).
Qed.

Lemma published_collect (self : MetricsContainer) (processes : list Process)
    (proj : MetricsContainer → Gauge) (value : ProcessMetrics → float) :
  reachable self → distinct_labelnames self → (proj, value) ∈ published →
  (proj (collect self processes).1).(_metrics) =
  writes self value ∅ (yielded (_get_processes_metrics processes)).
Proof.
  intros Hreach Hdistinct Hp. unfold collect.
  rewrite (published_for _ _ _ Hp).
  - by rewrite (published_reset _ _ _ Hp).
  - by apply uniform_reset, reachable_inv.
  - intros r. rewrite accepts_reset.
    apply reachable_accepts; [done..|in_gauges].
Qed.

Lemma lookup_writes_other (self : MetricsContainer)
    (value : ProcessMetrics → float) (records : list ProcessMetrics)
    (t : list string) :
  (∀ r, r ∈ records → label_tuple self r ≠ t) →
  ∀ m, writes self value m records !! t = m !! t.
Proof.
  unfold writes. induction records as [|r records IH]; intros H m; [done|].
  simpl. rewrite IH.
  - apply lookup_insert_ne, H. left.
  - intros r' Hr'. apply H. by right.
Qed.

Lemma dom_writes (self : MetricsContainer) (value : ProcessMetrics → float)
    (records : list ProcessMetrics) (m : gmap (list string) float) :
  dom (writes self value m records) =
  dom m ∪ list_to_set (label_tuple self <$> records).
Proof.
  unfold writes. revert m.
  induction records as [|r records IH]; intros m; simpl.
  - by rewrite (right_id_L ∅ (∪)).
  - rewrite IH, dom_insert_L.
    by rewrite (comm_L (∪) {[label_tuple self r]}), <-(assoc_L (∪)).
Qed.

(** X8: after a cycle of a reachable container whose label names differ
    from each other, each of the ten written gauges holds a value for
    exactly the label tuples of the records that the scan yielded in this
    cycle. *)
Theorem X8_series_of_a_cycle (self : MetricsContainer)
    (processes : list Process) (proj : MetricsContainer → Gauge)
    (value : ProcessMetrics → float) :
  reachable self → distinct_labelnames self → (proj, value) ∈ published →
  dom (proj (collect self processes).1).(_metrics) =
  list_to_set (label_tuple self <$> yielded (_get_processes_metrics processes)).
Proof.
  intros Hreach Hdistinct Hp.
  rewrite (published_collect _ _ _ _ Hreach Hdistinct Hp), dom_writes,
    dom_empty_L.
  by rewrite (left_id_L ∅ (∪)).
Qed.

(** X9: after a cycle of a reachable container whose label names differ
    from each other, each of the ten written gauges holds, under the label
    tuple of a yielded record, the value of the field of that record,
    unless a record yielded later has the same label tuple: the last record
    of a tuple decides. *)
Theorem X9_last_record_decides (self : MetricsContainer)
    (processes : list Process) (proj : MetricsContainer → Gauge)
    (value : ProcessMetrics → float) (r : ProcessMetrics)
    (earlier later : list ProcessMetrics) :
  reachable self → distinct_labelnames self → (proj, value) ∈ published →
  yielded (_get_processes_metrics processes) = (earlier ++ r :: later)%list →
  (∀ r', r' ∈ later → label_tuple self r' ≠ label_tuple self r) →
  (proj (collect self processes).1).(_metrics) !! label_tuple self r
  = Some (value r).
Proof.
  intros Hreach Hdistinct Hp Hy Hlater.
  rewrite (published_collect _ _ _ _ Hreach Hdistinct Hp), Hy.
  pose proof (lookup_writes_other self value later _ Hlater) as Hsame.
  unfold writes in *. rewrite foldl_app. simpl.
  rewrite Hsame. apply lookup_insert_eq.
Qed.

(** X18: in a reachable container in which a key of the global labels is
    one of the four label names of a record, a cycle whose scan yields a
    record raises [ValueError] at the first one, and leaves all eleven
    gauges empty. *)
Theorem X18_colliding_global_label (self : MetricsContainer)
    (processes : list Process) (k : string) :
  reachable self →
  k ∈ fst <$> global_items self → k ∈ base_labelnames →
  yielded (_get_processes_metrics processes) ≠ [] →
  (collect self processes).2 = Raise ValueError ∧
  ∀ g, g ∈ gauges (collect self processes).1 → g.(_metrics) = ∅.
Proof.
  intros Hreach Hkey Hbase Hyielded.
  destruct (reachable_inv self Hreach) as [Hu Hlib].
  unfold collect.
  destruct (_get_processes_metrics processes) as [| |r rest]; [done..|].
  simpl. rewrite (handle_uniform (_reset self) r (uniform_reset self Hu)).
  rewrite accepts_reset, (reachable_rejects self r _ k Hreach Hkey Hbase)
    by in_gauges.
  simpl. split; [done|]. intros g. by apply gauges_reset_empty.
Qed.

(** ** The configuration of a container *)

Lemma collect_config (self : MetricsContainer) (processes : list Process) :
  (collect self processes).1.(_prefix) = self.(_prefix) ∧
  (collect self processes).1.(_global_labels) = self.(_global_labels) ∧
  clear_metrics <$> gauges (collect self processes).1 =
    clear_metrics <$> gauges self ∧
  (collect self processes).1.(_mem_lib) = self.(_mem_lib).
Proof.
  pose proof (collect_reset self processes) as H.
  split; [exact (f_equal _prefix H)|].
  split; [exact (f_equal _global_labels H)|].
  split; [|exact (f_equal _mem_lib H)].
  by apply clear_gauges.
Qed.

(** X10: a cycle changes neither the prefix nor the global labels of the
    container, nor the name, the documentation or the label names of any
    gauge, and it leaves the [_mem_lib] gauge as it was. *)
Theorem X10_cycle_keeps_configuration (self : MetricsContainer)
    (processes : list Process) :
  (collect self processes).1.(_prefix) = self.(_prefix) ∧
  (collect self processes).1.(_global_labels) = self.(_global_labels) ∧
  clear_metrics <$> gauges (collect self processes).1 =
    clear_metrics <$> gauges self ∧
  (collect self processes).1.(_mem_lib) = self.(_mem_lib).
Proof. apply collect_config. Qed.

(** X11: in every reachable container all eleven gauges declare the same
    label names: the four of a record, then the keys of the global labels
    in their order. *)
Theorem X11_label_names_fixed (self : MetricsContainer) (g : Gauge) :
  reachable self → g ∈ gauges self →
  g.(_labelnames) = (base_labelnames ++ (fst <$> global_items self))%list.
Proof. apply reachable_labelnames. Qed.

(** X12: a fresh container names its gauges by the eleven names, each after
    the prefix and an underscore when the prefix is a string that is not
    empty; the eleven names differ from each other, whatever the prefix. *)
Theorem X12_gauge_names (prefix : option string) (global_labels : option dict) :
  _name <$> gauges (__init__ prefix global_labels) =
    (λ name, if truthy_str prefix
             then default EmptyString prefix ++ "_" ++ name
             else name) <$> gauge_names ∧
  NoDup (_name <$> gauges (__init__ prefix global_labels)).
Proof.
  split; [reflexivity|].
  assert (Hnames : NoDup gauge_names).
  { apply (bool_decide_unpack _). by vm_compute. }
  destruct prefix as [[|c p]|].
  - exact Hnames.
  - change (NoDup ((λ name, String c p ++ "_" ++ name) <$> gauge_names)).
    apply (NoDup_fmap_2 _), Hnames.
  - exact Hnames.
Qed.

(** ** The label tuple of a record *)

Lemma dict_update_notin (d : gmap string string) (items : dict) (k : string) :
  k ∉ fst <$> items → dict_update d items !! k = d !! k.
Proof.
  induction items as [|[k0 v0] items IH] using rev_ind; [done|].
  rewrite fmap_app, not_elem_of_app, dict_update_snoc. simpl.
  intros [Hitems [Hk0 _]%not_elem_of_cons].
  rewrite lookup_insert_ne by done. by apply IH.
Qed.

Lemma dict_update_key (d d' : gmap string string) (items : dict) (k : string) :
  k ∈ fst <$> items →
  dict_update d items !! k = dict_update d' items !! k.
Proof.
  induction items as [|[k0 v0] items IH] using rev_ind;
    [by intros ?%elem_of_nil|].
  rewrite fmap_app, !dict_update_snoc. simpl.
  destruct (decide (k0 = k)) as [->|Hne].
  - by rewrite !lookup_insert_eq.
  - rewrite !lookup_insert_ne by done.
    intros [?|[?|?%elem_of_nil]%elem_of_cons]%elem_of_app; by auto.
Qed.

Lemma dict_update_in (d : gmap string string) (items : dict) (k v : string) :
  NoDup (fst <$> items) → (k, v) ∈ items →
  dict_update d items !! k = Some v.
Proof.
  induction items as [|[k0 v0] items IH] using rev_ind;
    [by intros _ ?%elem_of_nil|].
  rewrite fmap_app, dict_update_snoc. simpl.
  intros (Hitems & Hk0 & _)%NoDup_app
         [Hin|[[= -> ->]|?%elem_of_nil]%elem_of_cons]%elem_of_app;
    [|apply lookup_insert_eq|done].
  rewrite lookup_insert_ne; [by apply IH|].
  intros ->. apply (Hk0 k); [|left].
  apply list_elem_of_fmap. by exists (k, v).
Qed.

Lemma label_tuple_layout (self : MetricsContainer) (r : ProcessMetrics) :
  reachable self →
  (∀ k, k ∈ fst <$> global_items self → k ∉ base_labelnames) →
  label_tuple self r =
  ([_get_process_name r; r.(dag); r.(operator); r.(exec_date)] ++
   ((λ l, default EmptyString
            (dict_update (base_labels r) (global_items self) !! l))
      <$> (fst <$> global_items self)))%list.
Proof.
  intros Hreach Hdisjoint. unfold label_tuple, labelvalues.
  rewrite (reachable_labelnames self _ Hreach) by in_gauges.
  rewrite fmap_app, labels_of_items. f_equal.
  assert (Hbase : ∀ k, k ∈ base_labelnames →
            dict_update (base_labels r) (global_items self) !! k =
            base_labels r !! k).
  { intros k Hk. apply dict_update_notin. intros Hin.
    by apply (Hdisjoint k Hin). }
  unfold base_labelnames in *. simpl.
  rewrite !Hbase by repeat constructor. reflexivity.
Qed.

(** X13: in a reachable container whose global label keys differ from each
    other and from the four label names of a record, the label tuple of a
    record is its name, dag, operator and execution date, and then the
    values of the global labels in their order. *)
Theorem X13_label_tuple_layout (self : MetricsContainer) (r : ProcessMetrics) :
  reachable self →
  NoDup (fst <$> global_items self) →
  (∀ k, k ∈ fst <$> global_items self → k ∉ base_labelnames) →
  label_tuple self r =
  ([_get_process_name r; r.(dag); r.(operator); r.(exec_date)] ++
   (snd <$> global_items self))%list.
Proof.
  intros Hreach Hnodup Hdisjoint.
  rewrite (label_tuple_layout self r Hreach Hdisjoint). f_equal.
  rewrite <-list_fmap_compose. apply Forall_fmap_ext_1, Forall_forall.
  intros [k v] Hin. simpl.
  by rewrite (dict_update_in _ _ k v Hnodup Hin).
Qed.

Lemma name_spec_eq (metrics : ProcessMetrics) :
  _get_process_name metrics = name_spec metrics.
Proof.
  unfold _get_process_name, name_spec, join, list_append.
  destruct (str_in (dag metrics) (operator metrics)),
    (is_local metrics), (is_raw metrics); simpl;
    rewrite ?append_cons, ?append_empty_l, ?append_empty_r; reflexivity.
Qed.

Lemma name_flags (r1 r2 : ProcessMetrics) :
  r1.(dag) = r2.(dag) → r1.(operator) = r2.(operator) →
  r1.(exec_date) = r2.(exec_date) →
  _get_process_name r1 = _get_process_name r2 →
  r1.(is_local) = r2.(is_local) ∧ r1.(is_raw) = r2.(is_raw).
Proof.
  intros Hd Ho He. rewrite !name_spec_eq. unfold name_spec.
  rewrite Hd, Ho, He. intros H.
  apply (inj (String.append _)), (inj (String.append _)),
    (inj (String.append _)) in H.
  destruct (is_local r1), (is_raw r1), (is_local r2), (is_raw r2);
    vm_compute in H; by try discriminate.
Qed.

(** X14: for records with the same dag, operator and execution date, equal
    names mean equal flags: a local run, a raw run, a run that is both and
    a run that is neither get four different names. *)
Theorem X14_name_tells_the_flags (r1 r2 : ProcessMetrics) :
  r1.(dag) = r2.(dag) → r1.(operator) = r2.(operator) →
  r1.(exec_date) = r2.(exec_date) →
  _get_process_name r1 = _get_process_name r2 →
  r1.(is_local) = r2.(is_local) ∧ r1.(is_raw) = r2.(is_raw).
Proof. apply name_flags. Qed.

Lemma name_of_identity (r1 r2 : ProcessMetrics) :
  identity r1 = identity r2 → _get_process_name r1 = _get_process_name r2.
Proof.
  unfold identity, _get_process_name. by intros [= -> -> -> -> ->].
Qed.

(** X15: in a reachable container whose global label keys differ from the
    four label names of a record, two records have the same label tuple
    exactly when they agree on the five identity fields: they then share
    one series in every gauge. *)
Theorem X15_label_tuple_is_the_identity (self : MetricsContainer)
    (r1 r2 : ProcessMetrics) :
  reachable self →
  (∀ k, k ∈ fst <$> global_items self → k ∉ base_labelnames) →
  label_tuple self r1 = label_tuple self r2 ↔ identity r1 = identity r2.
Proof.
  intros Hreach Hdisjoint. split.
  - rewrite !(label_tuple_layout self _ Hreach Hdisjoint).
    intros [= Hname Hd Ho He _].
    destruct (name_flags r1 r2 Hd Ho He Hname) as [Hl Hr].
    unfold identity. by rewrite Hd, Ho, He, Hl, Hr.
  - intros Hid. unfold label_tuple. rewrite !labels_of_items.
    unfold base_labels. rewrite (name_of_identity _ _ Hid).
    unfold identity in Hid. by injection Hid as -> -> -> _ _.
Qed.

(** ** The three results of the extraction, and the order of the records *)

Lemma get_airflow_data_trichotomy (process : Process) (cmdline : list string) :
  process.(psutil.cmdline) = Ok cmdline →
  (malformed cmdline = true ∧ matched cmdline = false ∧
   get_airflow_data process = Raise IndexError) ∨
  (malformed cmdline = false ∧ matched cmdline = true ∧
   ∃ d, get_airflow_data process = Ok (Some d)) ∨
  (malformed cmdline = false ∧ matched cmdline = false ∧
   (interpreter_ok cmdline = false ∨ matching_token cmdline = None) ∧
   get_airflow_data process = Ok None).
Proof.
  intros Ec. destruct (malformed cmdline) eqn:Emal.
  - left. split; [done|].
    split; [|by apply (get_airflow_data_malformed _ cmdline)].
    revert Emal. unfold malformed, matched.
    destruct (interpreter_ok cmdline); [|done].
    destruct (matching_token cmdline) as [token|]; [|done].
    rewrite !andb_true_l. intros Hlt%Nat.ltb_lt. apply Nat.leb_gt. lia.
  - right. destruct (matched cmdline) eqn:Ematched.
    + left. split; [done|]. split; [done|].
      by apply (get_airflow_data_matched _ cmdline).
    + right. split; [done|]. split; [done|].
      split; [|by apply (get_airflow_data_unmatched _ cmdline)].
      revert Emal Ematched. unfold malformed, matched.
      destruct (interpreter_ok cmdline); [|by left].
      destruct (matching_token cmdline) as [token|]; [|by right].
      rewrite !andb_true_l. intros Hge%Nat.ltb_ge Hlt%Nat.leb_gt. lia.
Qed.

(** X16: once the command line is read, the extraction has three results:
    it raises [IndexError] exactly when the command line passes the filter
    and its matching token has fewer than six sub-tokens; it returns data
    exactly when the command line passes the filter and its matching token
    has six sub-tokens or more; it returns [None] exactly when the filter
    fails or no token contains the marker. *)
Theorem X16_results_of_the_extraction (process : Process)
    (cmdline : list string) :
  process.(psutil.cmdline) = Ok cmdline →
  (get_airflow_data process = Raise IndexError ↔ malformed cmdline = true) ∧
  ((∃ d, get_airflow_data process = Ok (Some d)) ↔ matched cmdline = true) ∧
  (get_airflow_data process = Ok None ↔
   interpreter_ok cmdline = false ∨ matching_token cmdline = None).
Proof.
  intros Ec.
  destruct (get_airflow_data_trichotomy process cmdline Ec)
    as [(Hmal & Hm & ->)|[(Hmal & Hm & d & ->)|(Hmal & Hm & Hwhy & ->)]].
  - rewrite Hmal, Hm. repeat split; try done.
    + by intros [d ?].
    + revert Hmal. unfold malformed.
      by intros [Hi Ht]%andb_true_iff [Hn|Hn]; rewrite Hn in *.
  - rewrite Hmal, Hm. repeat split; try done.
    + by exists d.
    + revert Hm. unfold matched.
      by intros [Hi Ht]%andb_true_iff [Hn|Hn]; rewrite Hn in *.
  - rewrite Hmal, Hm. repeat split; try done. by intros [d ?].
Qed.

Lemma scan_records (processes : list Process) :
  yielded (_get_processes_metrics processes) `prefix_of`
    omap record_of processes ∧
  (raised (_get_processes_metrics processes) = None →
   yielded (_get_processes_metrics processes) = omap record_of processes).
Proof.
  induction processes as [|p rest [IHp IHe]]; simpl; [done|].
  destruct (except_NoSuchProcess (try_body p)) as [[[[[d m] ct] cp]|]|e] eqn:E.
  - assert (Hrec : record_of p = Some (make_metrics d m ct cp)).
    { unfold record_of. by rewrite E. }
    rewrite Hrec. simpl.
    split; [by apply prefix_cons|]. intros H. by rewrite IHe.
  - assert (Hrec : record_of p = None).
    { unfold record_of. by rewrite E. }
    by rewrite Hrec.
  - simpl. split; [apply prefix_nil|done].
Qed.

(** X17: the scan yields at most one record for a process, in the order of
    the enumeration: its records are the first ones of the records of the
    processes, and all of them when the scan does not raise. *)
Theorem X17_records_in_enumeration_order (processes : list Process) :
  yielded (_get_processes_metrics processes) `prefix_of`
    omap record_of processes ∧
  (raised (_get_processes_metrics processes) = None →
   yielded (_get_processes_metrics processes) = omap record_of processes).
Proof. apply scan_records. Qed.

End Metrics.

(** ** The properties on the sample processes *)

Example split_example :
  split "  airflow   run my_dag " = ["airflow"; "run"; "my_dag"].
Proof. reflexivity. Qed.

Example slice_example : slice 5 25 "2023-03-03" = "03-03".
Proof. reflexivity. Qed.

(** A worker as the module expects it: the whole command in one token. *)
Example get_airflow_data_worker :
  get_airflow_data (sample.live (sample.worker_cmdline "my_dag" "my_task")) =
  Ok (Some {| ad_dag := "my_dag"; ad_operator := "my_task";
              ad_exec_date := "03-03T00:00:00+00:00";
              ad_is_local := true; ad_is_raw := false |}).
Proof. reflexivity. Qed.

(** Sub-tokens that only contain a flag string set no flag, and neither do
    the flags in the tokens after the matching one. *)
Example get_airflow_data_near_flags :
  get_airflow_data (sample.live sample.near_flags_cmdline) =
  Ok (Some {| ad_dag := "my_dag"; ad_operator := "my_task";
              ad_exec_date := "03-03T00:00:00+00:00";
              ad_is_local := false; ad_is_raw := false |}).
Proof. reflexivity. Qed.

(** The prefix goes before the name of a gauge, and the keys of the global
    labels after the four label names. *)
Example init_prefix_and_labels :
  let self : MetricsContainer (float := sample.float) :=
    __init__ (Some "prod") (Some [("host", "worker-1")]) in
  self.(_mem_rss).(_name) = "prod_airflow_process_mem_rss" ∧
  self.(_mem_rss).(_labelnames)
    = ["name"; "dag"; "operator"; "exec_date"; "host"].
Proof. split; reflexivity. Qed.

(** After a cycle on one worker the resident-memory gauge holds its value,
    and the shared-library gauge holds nothing. *)
Example collect_mem_lib_unset :
  let after :=
    (collect sample.float_of_int (__init__ None None)
             [sample.live (sample.worker_cmdline "my_dag" "my_task")]).1 in
  let t := ["my_dag.my_task_03-03T00:00:00+00:00_local"; "my_dag"; "my_task";
            "03-03T00:00:00+00:00"] in
  after.(_mem_rss).(_metrics) !! t = Some (sample.float_of_int 4096) ∧
  after.(_mem_lib).(_metrics) !! t = None.
Proof. split; vm_compute; reflexivity. Qed.

(** C2, the claim as stated fails: on the token of the example the dag is
    not [my_dag], the operator is not [my_task], and the execution date is
    no slice of the date sub-token. *)
Lemma C2_counterexample :
  interpreter_ok sample.claimed_cmdline = true ∧
  matching_token sample.claimed_cmdline = Some sample.claimed_token ∧
  ∃ d, get_airflow_data (sample.live sample.claimed_cmdline) = Ok (Some d) ∧
       d.(ad_dag) ≠ "my_dag" ∧ d.(ad_operator) ≠ "my_task" ∧
       d.(ad_exec_date) ≠ slice 5 25 "2023-03-03T00:00:00+00:00" ∧
       d.(ad_exec_date) ≠ slice 5 24 "2023-03-03T00:00:00+00:00".
Proof.
  split; [reflexivity|]. split; [reflexivity|].
  eexists. split; [reflexivity|]. simpl. repeat split; discriminate.
Qed.

(** C2, as amended, on the sample argument vector. *)
Lemma C2_witness :
  psutil.cmdline (sample.live sample.claimed_cmdline)
    = Ok sample.claimed_cmdline ∧
  interpreter_ok sample.claimed_cmdline = true ∧
  matching_token sample.claimed_cmdline = Some sample.claimed_token ∧
  get_airflow_data (sample.live sample.claimed_cmdline) =
    Ok (Some {| ad_dag := "my_task";
                ad_operator := "2023-03-03T00:00:00+00:00";
                ad_exec_date := "al";
                ad_is_local := true; ad_is_raw := false |}).
Proof.
  split; [reflexivity|]. split; [reflexivity|]. split; [reflexivity|].
  exact (proj1 (C2_extraction_of_claimed_token
                  (sample.live sample.claimed_cmdline) sample.claimed_cmdline
                  eq_refl eq_refl eq_refl)).
Defined.

(** C8, the claim as stated fails: a date sub-token of ten characters gives
    an execution date of five, and on a sub-token of 25 characters the
    execution date is not the slice that ends before index 24. *)
Lemma C8_counterexample :
  (∃ r, yielded (_get_processes_metrics
                   [sample.live sample.short_date_cmdline]) = [r] ∧
        String.length r.(exec_date) ≠ 20) ∧
  (∃ r, yielded (_get_processes_metrics
                   [sample.live (sample.worker_cmdline "my_dag" "my_task")])
          = [r] ∧
        r.(exec_date) ≠ slice 5 24 "2023-03-03T00:00:00+00:00").
Proof.
  split; eexists; (split; [reflexivity|]); simpl; discriminate.
Qed.

(** C8, as amended, on the worker with the short date. *)
Lemma C8_witness :
  ∃ r,
    r ∈ yielded (_get_processes_metrics
                   [sample.live sample.short_date_cmdline]) ∧
    ∃ process cmdline token arg5,
      process ∈ [sample.live sample.short_date_cmdline] ∧
      process.(psutil.cmdline) = Ok cmdline ∧
      matching_token cmdline = Some token ∧
      split token !! 5 = Some arg5 ∧
      r.(exec_date) = slice 5 25 arg5 ∧
      String.length r.(exec_date) = Nat.min 20 (String.length arg5 - 5).
Proof.
  eexists. split.
  - left.
  - apply (C8_exec_date_slice [sample.live sample.short_date_cmdline]). left.
Defined.

(** C10, on the sample with the near flags. *)
Lemma C10_witness :
  get_airflow_data (sample.live sample.near_flags_cmdline) =
    Ok (Some {| ad_dag := "my_dag"; ad_operator := "my_task";
                ad_exec_date := "03-03T00:00:00+00:00";
                ad_is_local := false; ad_is_raw := false |}) ∧
  ∃ cmdline token,
    psutil.cmdline (sample.live sample.near_flags_cmdline) = Ok cmdline ∧
    matching_token cmdline = Some token ∧
    (false = true ↔ "--local" ∈ split token) ∧
    (false = true ↔ "--raw" ∈ split token).
Proof.
  assert (Hdata : get_airflow_data (sample.live sample.near_flags_cmdline) =
    Ok (Some {| ad_dag := "my_dag"; ad_operator := "my_task";
                ad_exec_date := "03-03T00:00:00+00:00";
                ad_is_local := false; ad_is_raw := false |})).
  { reflexivity. }
  split; [exact Hdata|].
  exact (C10_flags_of_matching_token _ _ Hdata).
Defined.

(** C9, on a shell between two workers. *)
Lemma C9_witness :
  psutil.cmdline (sample.live sample.shell_cmdline)
    = Ok sample.shell_cmdline ∧
  startswith "/bin/bash" "/usr/bin/python" = false ∧
  get_airflow_data (sample.live sample.shell_cmdline) = Ok None ∧
  _get_processes_metrics
    [sample.live (sample.worker_cmdline "etl" "extract");
     sample.live sample.shell_cmdline;
     sample.live (sample.worker_cmdline "etl" "load")] =
  _get_processes_metrics
    [sample.live (sample.worker_cmdline "etl" "extract");
     sample.live (sample.worker_cmdline "etl" "load")].
Proof.
  split; [reflexivity|]. split; [reflexivity|].
  pose proof (C9_interpreter_filter
                (sample.live sample.shell_cmdline) sample.shell_cmdline
                [sample.live (sample.worker_cmdline "etl" "extract")]
                [sample.live (sample.worker_cmdline "etl" "load")]
                eq_refl
                (or_intror (ex_intro _ "/bin/bash" (ex_intro _ _
                   (conj eq_refl eq_refl))))) as (Hdata & _ & Hscan).
  split; [exact Hdata|exact Hscan].
Defined.

(** C4, the claim as stated fails: a malformed marker token ends the scan,
    and the worker after it, which gives a record on its own, is never
    looked at. *)
Lemma C4_counterexample :
  cmdline_malformed (sample.live sample.malformed_cmdline) = true ∧
  _get_processes_metrics
    [sample.live sample.malformed_cmdline;
     sample.live (sample.worker_cmdline "etl" "load")] = GRaise IndexError ∧
  is_Some (record_of (sample.live (sample.worker_cmdline "etl" "load"))).
Proof.
  split; [reflexivity|]. split; [reflexivity|]. eexists. reflexivity.
Qed.

(** C4, as amended, on a worker that has gone and on a malformed one. *)
Lemma C4_witness :
  (vanished (sample.gone (sample.worker_cmdline "etl" "extract")) ∧
   cmdline_malformed (sample.gone (sample.worker_cmdline "etl" "extract"))
     = false ∧
   _get_processes_metrics
     [sample.live (sample.worker_cmdline "etl" "transform");
      sample.gone (sample.worker_cmdline "etl" "extract");
      sample.live (sample.worker_cmdline "etl" "load")] =
   _get_processes_metrics
     [sample.live (sample.worker_cmdline "etl" "transform");
      sample.live (sample.worker_cmdline "etl" "load")]) ∧
  (cmdline_malformed (sample.live sample.malformed_cmdline) = true ∧
   _get_processes_metrics
     [sample.live sample.malformed_cmdline;
      sample.live (sample.worker_cmdline "etl" "load")] = GRaise IndexError).
Proof.
  assert (Hgone : vanished (sample.gone (sample.worker_cmdline "etl" "extract"))).
  { split; [|reflexivity]. unfold only_vanishes. simpl. repeat constructor. }
  split.
  - split; [exact Hgone|]. split; [reflexivity|].
    exact (proj1 (C4_scan_resilience
                    (sample.gone (sample.worker_cmdline "etl" "extract"))
                    [sample.live (sample.worker_cmdline "etl" "transform")]
                    [sample.live (sample.worker_cmdline "etl" "load")])
                 Hgone eq_refl).
  - split; [reflexivity|].
    exact (proj1 (proj2 (C4_scan_resilience
                           (sample.live sample.malformed_cmdline) []
                           [sample.live (sample.worker_cmdline "etl" "load")])
                        eq_refl)).
Defined.

(** C6, the claim as stated fails: a worker that has gone after its command
    line was read, and whose matching token is malformed, ends the scan
    with [IndexError]; so does a malformed process after a worker that has
    gone. *)
Lemma C6_counterexample :
  vanished (sample.gone sample.malformed_cmdline) ∧
  raised (_get_processes_metrics [sample.gone sample.malformed_cmdline])
    = Some IndexError ∧
  Forall only_vanishes
    [sample.gone (sample.worker_cmdline "etl" "extract");
     sample.live sample.malformed_cmdline] ∧
  raised (_get_processes_metrics
            [sample.gone (sample.worker_cmdline "etl" "extract");
             sample.live sample.malformed_cmdline]) = Some IndexError.
Proof.
  split; [split; [|reflexivity]|].
  { unfold only_vanishes. simpl. repeat constructor. }
  split; [reflexivity|]. split; [|reflexivity].
  unfold only_vanishes. simpl. repeat constructor.
Qed.

(** C6, as amended, on two workers that stay, one that has gone and a
    shell. *)
Lemma C6_witness :
  Forall only_vanishes
    [sample.live (sample.worker_cmdline "etl" "extract");
     sample.gone (sample.worker_cmdline "etl" "transform");
     sample.live sample.shell_cmdline;
     sample.live (sample.worker_cmdline "etl" "load")] ∧
  Forall (λ process, cmdline_malformed process = false)
    [sample.live (sample.worker_cmdline "etl" "extract");
     sample.gone (sample.worker_cmdline "etl" "transform");
     sample.live sample.shell_cmdline;
     sample.live (sample.worker_cmdline "etl" "load")] ∧
  raised (_get_processes_metrics
    [sample.live (sample.worker_cmdline "etl" "extract");
     sample.gone (sample.worker_cmdline "etl" "transform");
     sample.live sample.shell_cmdline;
     sample.live (sample.worker_cmdline "etl" "load")]) = None ∧
  List.length (yielded (_get_processes_metrics
    [sample.live (sample.worker_cmdline "etl" "extract");
     sample.gone (sample.worker_cmdline "etl" "transform");
     sample.live sample.shell_cmdline;
     sample.live (sample.worker_cmdline "etl" "load")])) = 2.
Proof.
  assert (Hv : Forall only_vanishes
    [sample.live (sample.worker_cmdline "etl" "extract");
     sample.gone (sample.worker_cmdline "etl" "transform");
     sample.live sample.shell_cmdline;
     sample.live (sample.worker_cmdline "etl" "load")]).
  { unfold only_vanishes. simpl. repeat constructor. }
  assert (Hm : Forall (λ process, cmdline_malformed process = false)
    [sample.live (sample.worker_cmdline "etl" "extract");
     sample.gone (sample.worker_cmdline "etl" "transform");
     sample.live sample.shell_cmdline;
     sample.live (sample.worker_cmdline "etl" "load")]).
  { repeat constructor. }
  split; [exact Hv|]. split; [exact Hm|].
  destruct (C6_vanished_processes _ Hv Hm) as (Hraised & _ & _ & Hlength).
  split; [exact Hraised|]. rewrite Hlength. reflexivity.
Defined.

(** C1, on a container that went through a cycle with one worker, at a
    cycle in which that worker is gone and another one is live: the tuple of
    the first worker is exposed before the cycle and not after it. *)
Lemma C1_witness :
  reachable sample.float_of_int
    (collect sample.float_of_int (__init__ None None)
             [sample.live (sample.worker_cmdline "etl" "extract")]).1 ∧
  exposes
    (collect sample.float_of_int (__init__ None None)
             [sample.live (sample.worker_cmdline "etl" "extract")]).1
    ["etl.extract_03-03T00:00:00+00:00_local"; "etl"; "extract";
     "03-03T00:00:00+00:00"] ∧
  ¬ exposes
    (collect sample.float_of_int
       (collect sample.float_of_int (__init__ None None)
                [sample.live (sample.worker_cmdline "etl" "extract")]).1
       [sample.live (sample.worker_cmdline "etl" "load")]).1
    ["etl.extract_03-03T00:00:00+00:00_local"; "etl"; "extract";
     "03-03T00:00:00+00:00"].
Proof.
  assert (Hreach : reachable sample.float_of_int
    (collect sample.float_of_int (__init__ None None)
             [sample.live (sample.worker_cmdline "etl" "extract")]).1).
  { apply reachable_collect, reachable_init. }
  assert (Hexp : exposes
    (collect sample.float_of_int (__init__ None None)
             [sample.live (sample.worker_cmdline "etl" "extract")]).1
    ["etl.extract_03-03T00:00:00+00:00_local"; "etl"; "extract";
     "03-03T00:00:00+00:00"]).
  { eexists. split; [left|]. eexists. vm_compute. reflexivity. }
  split; [exact Hreach|]. split; [exact Hexp|].
  apply (proj2 (proj2 (C1_stale_series_eliminated sample.float_of_int _
                         [sample.live (sample.worker_cmdline "etl" "load")]
                         Hreach)) _ Hexp).
  intros process r ->%list_elem_of_singleton [= <-]. vm_compute. discriminate.
Defined.

(** C5, on a fresh container and the record of the sample worker: the
    handling returns, the resident-memory gauge holds the value of the
    record, and the shared-library gauge is as it was. *)
Lemma C5_witness :
  reachable sample.float_of_int (__init__ None None) ∧
  distinct_labelnames (__init__ (float := sample.float) None None) ∧
  (_handle_process_metrics sample.float_of_int (__init__ None None)
     (make_metrics {| ad_dag := "my_dag"; ad_operator := "my_task";
                      ad_exec_date := "03-03T00:00:00+00:00";
                      ad_is_local := true; ad_is_raw := false |}
                   sample.mem sample.cpu_times (sample.float_of_int 3))).2
    = Ok tt ∧
  (_handle_process_metrics sample.float_of_int (__init__ None None)
     (make_metrics {| ad_dag := "my_dag"; ad_operator := "my_task";
                      ad_exec_date := "03-03T00:00:00+00:00";
                      ad_is_local := true; ad_is_raw := false |}
                   sample.mem sample.cpu_times (sample.float_of_int 3))).1
    .(_mem_rss).(_metrics)
    !! ["my_dag.my_task_03-03T00:00:00+00:00_local"; "my_dag"; "my_task";
        "03-03T00:00:00+00:00"]
    = Some (sample.float_of_int 4096) ∧
  (_handle_process_metrics sample.float_of_int (__init__ None None)
     (make_metrics {| ad_dag := "my_dag"; ad_operator := "my_task";
                      ad_exec_date := "03-03T00:00:00+00:00";
                      ad_is_local := true; ad_is_raw := false |}
                   sample.mem sample.cpu_times (sample.float_of_int 3))).1
    .(_mem_lib)
    = (__init__ None None).(_mem_lib).
Proof.
  pose (r := make_metrics {| ad_dag := "my_dag"; ad_operator := "my_task";
                            ad_exec_date := "03-03T00:00:00+00:00";
                            ad_is_local := true; ad_is_raw := false |}
                         sample.mem sample.cpu_times
                         (sample.float_of_int 3)).
  assert (Hreach : reachable sample.float_of_int (__init__ None None)).
  { apply reachable_init. }
  assert (Hdistinct :
    distinct_labelnames (__init__ (float := sample.float) None None)).
  { apply (bool_decide_unpack _). by vm_compute. }
  destruct (C5_published_gauges sample.float_of_int (__init__ None None) r)
    as (Hholds & Hok & Hlib & _).
  split; [exact Hreach|]. split; [exact Hdistinct|].
  split; [exact (Hok Hreach Hdistinct)|].
  split; [exact (proj1 (Hholds (Hok Hreach Hdistinct)))|exact Hlib].
Defined.

(** ** The further properties on the sample processes *)

(** X1, on the sample worker. *)
Lemma X1_witness :
  ∃ d,
    get_airflow_data (sample.live (sample.worker_cmdline "my_dag" "my_task"))
      = Ok (Some d) ∧
    d.(ad_dag) ≠ EmptyString ∧ no_space d.(ad_dag) = true ∧
    d.(ad_operator) ≠ EmptyString ∧ no_space d.(ad_operator) = true ∧
    no_space d.(ad_exec_date) = true ∧
    String.length d.(ad_exec_date) ≤ 20.
Proof.
  eexists. split; [reflexivity|].
  apply (X1_extracted_fields
           (sample.live (sample.worker_cmdline "my_dag" "my_task"))).
  reflexivity.
Defined.

(** X2, on a command line with a second, malformed, marker token. *)
Lemma X2_witness :
  str_in "airflow run" sample.claimed_token = true ∧
  get_airflow_data (sample.live sample.two_markers_cmdline) =
  get_airflow_data (sample.live sample.claimed_cmdline).
Proof.
  split; [reflexivity|].
  exact (X2_first_marker_token_decides
           (sample.live sample.two_markers_cmdline)
           (sample.live sample.claimed_cmdline)
           ["/usr/bin/python3"] ["airflow run"] [] sample.claimed_token
           eq_refl eq_refl eq_refl).
Defined.

(** X3, on a script whose memory may not be read, between two workers. *)
Lemma X3_witness :
  matched sample.plain_cmdline = false ∧
  malformed sample.plain_cmdline = false ∧
  record_of (sample.denied sample.plain_cmdline) = None ∧
  _get_processes_metrics
    [sample.live (sample.worker_cmdline "etl" "extract");
     sample.denied sample.plain_cmdline;
     sample.live (sample.worker_cmdline "etl" "load")] =
  _get_processes_metrics
    [sample.live (sample.worker_cmdline "etl" "extract");
     sample.live (sample.worker_cmdline "etl" "load")].
Proof.
  split; [reflexivity|]. split; [reflexivity|].
  exact (X3_no_fetch_for_non_workers
           (sample.denied sample.plain_cmdline) sample.plain_cmdline
           [sample.live (sample.worker_cmdline "etl" "extract")]
           [sample.live (sample.worker_cmdline "etl" "load")]
           eq_refl eq_refl eq_refl).
Defined.

(** X4, on a worker whose memory may not be read. *)
Lemma X4_witness :
  cmdline_matched (sample.denied (sample.worker_cmdline "etl" "extract"))
    = true ∧
  fetch_errors (sample.denied (sample.worker_cmdline "etl" "extract"))
    = [AccessDenied] ∧
  _get_processes_metrics
    [sample.denied (sample.worker_cmdline "etl" "extract");
     sample.live (sample.worker_cmdline "etl" "load")] = GRaise AccessDenied.
Proof.
  split; [reflexivity|]. split; [reflexivity|].
  apply (proj2 (X4_first_failure_decides
                  (sample.denied (sample.worker_cmdline "etl" "extract"))
                  AccessDenied []
                  [sample.live (sample.worker_cmdline "etl" "load")]
                  (or_intror eq_refl) eq_refl)).
  discriminate.
Defined.

(** X7, on a malformed process between two workers. *)
Lemma X7_witness :
  _get_processes_metrics [sample.live sample.malformed_cmdline]
    = GRaise IndexError ∧
  (collect sample.float_of_int (__init__ None None)
     [sample.live (sample.worker_cmdline "etl" "extract");
      sample.live sample.malformed_cmdline;
      sample.live (sample.worker_cmdline "etl" "load")]).1 =
  (collect sample.float_of_int (__init__ None None)
     [sample.live (sample.worker_cmdline "etl" "extract")]).1 ∧
  (collect sample.float_of_int (__init__ None None)
     [sample.live (sample.worker_cmdline "etl" "extract");
      sample.live sample.malformed_cmdline;
      sample.live (sample.worker_cmdline "etl" "load")]).2 = Raise IndexError.
Proof.
  assert (Hdistinct :
    distinct_labelnames (__init__ (float := sample.float) None None)).
  { apply (bool_decide_unpack _). by vm_compute. }
  destruct (X7_aborted_cycle sample.float_of_int (__init__ None None)
              (sample.live sample.malformed_cmdline) IndexError
              [sample.live (sample.worker_cmdline "etl" "extract")]
              [sample.live (sample.worker_cmdline "etl" "load")]
              eq_refl) as (Hcontainer & _ & Hraise).
  split; [reflexivity|]. split; [exact Hcontainer|].
  exact (Hraise (reachable_init _ None None) Hdistinct eq_refl).
Defined.

(** X8, on the resident-memory gauge after a cycle on two workers. *)
Lemma X8_witness :
  reachable sample.float_of_int (__init__ None None) ∧
  (_mem_rss, λ metrics, sample.float_of_int metrics.(mem_rss))
    ∈ published sample.float_of_int ∧
  dom (collect sample.float_of_int (__init__ None None)
         [sample.live (sample.worker_cmdline "etl" "extract");
          sample.live (sample.worker_cmdline "etl" "load")]).1
        .(_mem_rss).(_metrics) =
  list_to_set
    (label_tuple (__init__ None None) <$>
     yielded (_get_processes_metrics
                [sample.live (sample.worker_cmdline "etl" "extract");
                 sample.live (sample.worker_cmdline "etl" "load")])).
Proof.
  split; [apply reachable_init|]. split; [left|].
  apply (X8_series_of_a_cycle sample.float_of_int (__init__ None None) _
           _mem_rss (λ metrics, sample.float_of_int metrics.(mem_rss))).
  - apply reachable_init.
  - apply (bool_decide_unpack _). by vm_compute.
  - left.
Defined.

(** X9, on two processes of the same task: the resident memory of the one
    that is enumerated last is the one that the gauge holds. *)
Lemma X9_witness :
  ∃ r earlier,
    yielded (_get_processes_metrics
               [sample.live (sample.worker_cmdline "etl" "extract");
                sample.heavy (sample.worker_cmdline "etl" "extract")])
      = (earlier ++ [r])%list ∧
    (collect sample.float_of_int (__init__ None None)
       [sample.live (sample.worker_cmdline "etl" "extract");
        sample.heavy (sample.worker_cmdline "etl" "extract")]).1
      .(_mem_rss).(_metrics) !! label_tuple (__init__ None None) r
    = Some (sample.float_of_int 9000).
Proof.
  pose (r := make_metrics {| ad_dag := "etl"; ad_operator := "extract";
                            ad_exec_date := "03-03T00:00:00+00:00";
                            ad_is_local := true; ad_is_raw := false |}
                         sample.heavy_mem sample.cpu_times
                         (sample.float_of_int 3)).
  pose (r0 := make_metrics {| ad_dag := "etl"; ad_operator := "extract";
                             ad_exec_date := "03-03T00:00:00+00:00";
                             ad_is_local := true; ad_is_raw := false |}
                          sample.mem sample.cpu_times
                          (sample.float_of_int 3)).
  exists r, [r0]. split; [reflexivity|].
  apply (X9_last_record_decides sample.float_of_int (__init__ None None)
           [sample.live (sample.worker_cmdline "etl" "extract");
            sample.heavy (sample.worker_cmdline "etl" "extract")]
           _mem_rss (λ metrics, sample.float_of_int metrics.(mem_rss))
           r [r0] []).
  - apply reachable_init.
  - apply (bool_decide_unpack _). by vm_compute.
  - left.
  - reflexivity.
  - intros r' Hr'. by apply elem_of_nil in Hr'.
Defined.

(** X11, on the gauge that is never written, in a container with a prefix
    and one global label, after a cycle. *)
Lemma X11_witness :
  reachable sample.float_of_int
    (collect sample.float_of_int
       (__init__ (Some "prod") (Some [("host", "worker-1")]))
       [sample.live (sample.worker_cmdline "etl" "extract")]).1 ∧
  (collect sample.float_of_int
     (__init__ (Some "prod") (Some [("host", "worker-1")]))
     [sample.live (sample.worker_cmdline "etl" "extract")]).1
    .(_mem_lib).(_labelnames)
  = ["name"; "dag"; "operator"; "exec_date"; "host"].
Proof.
  assert (Hreach : reachable sample.float_of_int
    (collect sample.float_of_int
       (__init__ (Some "prod") (Some [("host", "worker-1")]))
       [sample.live (sample.worker_cmdline "etl" "extract")]).1).
  { apply reachable_collect, reachable_init. }
  split; [exact Hreach|].
  apply (X11_label_names_fixed sample.float_of_int _ _ Hreach).
  do 4 right. left.
Defined.

(** X13, on a record in a container with one global label. *)
Lemma X13_witness :
  NoDup ["host"] ∧
  label_tuple
    (__init__ (float := sample.float) None (Some [("host", "worker-1")]))
    (make_metrics {| ad_dag := "etl"; ad_operator := "extract";
                     ad_exec_date := "03-03T00:00:00+00:00";
                     ad_is_local := true; ad_is_raw := false |}
                  sample.mem sample.cpu_times (sample.float_of_int 3))
  = ["etl.extract_03-03T00:00:00+00:00_local"; "etl"; "extract";
     "03-03T00:00:00+00:00"; "worker-1"].
Proof.
  assert (Hnodup : NoDup ["host"]).
  { apply NoDup_singleton. }
  split; [exact Hnodup|].
  apply (X13_label_tuple_layout sample.float_of_int
           (__init__ None (Some [("host", "worker-1")]))).
  - apply reachable_init.
  - exact Hnodup.
  - intros k ->%list_elem_of_singleton Hbase. unfold base_labelnames in Hbase.
    repeat (apply elem_of_cons in Hbase as [Hbase|Hbase]; [discriminate|]).
    by apply elem_of_nil in Hbase.
Defined.

(** X14, on the records of two processes of the same local task. *)
Lemma X14_witness :
  _get_process_name
    (make_metrics {| ad_dag := "etl"; ad_operator := "extract";
                     ad_exec_date := "03-03T00:00:00+00:00";
                     ad_is_local := true; ad_is_raw := false |}
                  sample.mem sample.cpu_times (sample.float_of_int 3)) =
  _get_process_name
    (make_metrics {| ad_dag := "etl"; ad_operator := "extract";
                     ad_exec_date := "03-03T00:00:00+00:00";
                     ad_is_local := true; ad_is_raw := false |}
                  sample.heavy_mem sample.cpu_times (sample.float_of_int 3)) ∧
  true = true ∧ false = false.
Proof.
  split; [reflexivity|].
  exact (X14_name_tells_the_flags
           (make_metrics {| ad_dag := "etl"; ad_operator := "extract";
                            ad_exec_date := "03-03T00:00:00+00:00";
                            ad_is_local := true; ad_is_raw := false |}
                         sample.mem sample.cpu_times (sample.float_of_int 3))
           (make_metrics {| ad_dag := "etl"; ad_operator := "extract";
                            ad_exec_date := "03-03T00:00:00+00:00";
                            ad_is_local := true; ad_is_raw := false |}
                         sample.heavy_mem sample.cpu_times
                         (sample.float_of_int 3))
           eq_refl eq_refl eq_refl eq_refl).
Defined.

(** X15, on a local run and a raw run of the same task: their label tuples
    differ. *)
Lemma X15_witness :
  reachable sample.float_of_int (__init__ None None) ∧
  label_tuple (__init__ (float := sample.float) None None)
    (make_metrics {| ad_dag := "etl"; ad_operator := "extract";
                     ad_exec_date := "03-03T00:00:00+00:00";
                     ad_is_local := true; ad_is_raw := false |}
                  sample.mem sample.cpu_times (sample.float_of_int 3)) ≠
  label_tuple (__init__ (float := sample.float) None None)
    (make_metrics {| ad_dag := "etl"; ad_operator := "extract";
                     ad_exec_date := "03-03T00:00:00+00:00";
                     ad_is_local := false; ad_is_raw := true |}
                  sample.mem sample.cpu_times (sample.float_of_int 3)).
Proof.
  split; [apply reachable_init|].
  intros Htuple.
  apply (X15_label_tuple_is_the_identity sample.float_of_int
           (__init__ None None)) in Htuple.
  - discriminate Htuple.
  - apply reachable_init.
  - by intros k ?%elem_of_nil.
Defined.

(** X16, on the malformed command line. *)
Lemma X16_witness :
  psutil.cmdline (sample.live sample.malformed_cmdline)
    = Ok sample.malformed_cmdline ∧
  malformed sample.malformed_cmdline = true ∧
  get_airflow_data (sample.live sample.malformed_cmdline) = Raise IndexError.
Proof.
  split; [reflexivity|]. split; [reflexivity|].
  apply (proj1 (X16_results_of_the_extraction
                  (sample.live sample.malformed_cmdline)
                  sample.malformed_cmdline eq_refl)).
  reflexivity.
Defined.

(** X17, on two workers around one that has gone and a shell. *)
Lemma X17_witness :
  raised (_get_processes_metrics
            [sample.live (sample.worker_cmdline "etl" "extract");
             sample.gone (sample.worker_cmdline "etl" "transform");
             sample.live sample.shell_cmdline;
             sample.live (sample.worker_cmdline "etl" "load")]) = None ∧
  yielded (_get_processes_metrics
             [sample.live (sample.worker_cmdline "etl" "extract");
              sample.gone (sample.worker_cmdline "etl" "transform");
              sample.live sample.shell_cmdline;
              sample.live (sample.worker_cmdline "etl" "load")]) =
  omap record_of
       [sample.live (sample.worker_cmdline "etl" "extract");
        sample.gone (sample.worker_cmdline "etl" "transform");
        sample.live sample.shell_cmdline;
        sample.live (sample.worker_cmdline "etl" "load")].
Proof.
  split; [reflexivity|].
  apply (proj2 (X17_records_in_enumeration_order
                  [sample.live (sample.worker_cmdline "etl" "extract");
                   sample.gone (sample.worker_cmdline "etl" "transform");
                   sample.live sample.shell_cmdline;
                   sample.live (sample.worker_cmdline "etl" "load")])).
  reflexivity.
Defined.

(** X18, on a container whose global labels override the dag, at a cycle
    with one worker. *)
Lemma X18_witness :
  reachable sample.float_of_int (__init__ None (Some [("dag", "override")])) ∧
  yielded (_get_processes_metrics
             [sample.live (sample.worker_cmdline "etl" "extract")]) ≠ [] ∧
  (collect sample.float_of_int (__init__ None (Some [("dag", "override")]))
     [sample.live (sample.worker_cmdline "etl" "extract")]).2
    = Raise ValueError ∧
  (collect sample.float_of_int (__init__ None (Some [("dag", "override")]))
     [sample.live (sample.worker_cmdline "etl" "extract")]).1
    .(_mem_rss).(_metrics) = ∅.
Proof.
  assert (Hyielded :
    yielded (_get_processes_metrics
               [sample.live (sample.worker_cmdline "etl" "extract")]) ≠ []).
  { discriminate. }
  destruct (X18_colliding_global_label sample.float_of_int
              (__init__ None (Some [("dag", "override")]))
              [sample.live (sample.worker_cmdline "etl" "extract")] "dag")
    as [Hraise Hempty].
  - apply reachable_init.
  - left.
  - right. left.
  - exact Hyielded.
  - split; [apply reachable_init|]. split; [exact Hyielded|].
    split; [exact Hraise|]. apply Hempty. left.
Defined.
